(** * Apartment scraper API client: a shallow embedding of [examples/client.py]

    The client is linear request/response glue around four REST endpoints
    plus one blocking poll loop.  Everything it does is an interaction
    with the outside: HTTP requests through a [requests.Session], readings
    of the wall clock, [time.sleep] and [print].  The embedding threads a
    [World] through the code: the world holds the scripted behaviour of
    the outside (the reply to the n-th request, the value of the n-th
    clock reading) and the record of what the client did to it (requests
    sent, sleeps, printed lines).

    Python values that come out of [response.json()] are never validated
    by the client, so they are modelled as untyped JSON values.  Clock
    readings are rationals: every float is one, and the rounding of the
    single subtraction in the loop test is not modelled.  JSON numbers are
    integers.  Strings are byte strings; bytes above 127 are taken to
    belong to printable characters.

    The [while] loop of [poll_until_complete] runs for as long as the
    clock lets it, so its embedding takes a budget of iterations and
    answers [Diverge] when the budget is used up; the statements about it
    hold for every budget above the number of polls they describe. *)

From Stdlib Require Import List String Ascii ZArith QArith Lia Bool Arith.
From Stdlib Require Import DecimalString.
Import ListNotations.

Set Warnings "-register-all".

Local Open Scope Z_scope.
Local Open Scope string_scope.

(* ===================================================================== *)
(** ** Python values decoded from JSON *)
(* ===================================================================== *)

(** A [dict] keeps insertion order, which [str()] shows, so objects are
    association lists; a well-formed one has no repeated key. [JNull] is
    Python's [None]. *)
Inductive json : Type :=
| JNull
| JBool (b : bool)
| JNum (z : Z)
| JStr (s : string)
| JArr (items : list json)
| JObj (fields : list (string * json)).

Definition dict := list (string * json).

Fixpoint dict_lookup (k : string) (d : dict) : option json :=
  match d with
  | [] => None
  | (k', v) :: d' => if String.eqb k k' then Some v else dict_lookup k d'
  end.

(** [d[k] = v] on a dict: overwrite in place, or append a new key. *)
Fixpoint dict_set (k : string) (v : json) (d : dict) : dict :=
  match d with
  | [] => [(k, v)]
  | (k', v') :: d' =>
      if String.eqb k k' then (k', v) :: d' else (k', v') :: dict_set k v d'
  end.

Definition keys (d : dict) : list string := map fst d.

(** *** [str()] and [repr()], as f-strings use them *)

Definition string_of_Z (z : Z) : string := NilZero.string_of_int (Z.to_int z).

Definition hex_digit (n : nat) : ascii :=
  nth n (list_ascii_of_string "0123456789abcdef") "0"%char.

Definition backslash : ascii := ascii_of_nat 92.
Definition squote : ascii := ascii_of_nat 39.
Definition dquote : ascii := ascii_of_nat 34.

Definition escape_char (quote c : ascii) : string :=
  let n := nat_of_ascii c in
  if Ascii.eqb c backslash then String backslash (String backslash EmptyString)
  else if Ascii.eqb c quote then String backslash (String quote EmptyString)
  else if Nat.eqb n 10 then String backslash "n"
  else if Nat.eqb n 13 then String backslash "r"
  else if Nat.eqb n 9 then String backslash "t"
  else if Nat.ltb n 32 || Nat.eqb n 127 then
    String backslash
      (String "x" (String (hex_digit (Nat.div n 16))
                     (String (hex_digit (Nat.modulo n 16)) EmptyString)))
  else String c EmptyString.

Fixpoint contains_char (c : ascii) (s : string) : bool :=
  match s with
  | EmptyString => false
  | String a s' => Ascii.eqb a c || contains_char c s'
  end.

Definition repr_str (s : string) : string :=
  let quote :=
    if contains_char squote s && negb (contains_char dquote s)
    then dquote else squote in
  String quote
    (String.concat EmptyString (map (escape_char quote) (list_ascii_of_string s))
     ++ String quote EmptyString).

Fixpoint py_repr (v : json) : string :=
  match v with
  | JNull => "None"
  | JBool true => "True"
  | JBool false => "False"
  | JNum z => string_of_Z z
  | JStr s => repr_str s
  | JArr items => "[" ++ String.concat ", " (map py_repr items) ++ "]"
  | JObj fields =>
      "{" ++ String.concat ", "
               (map (fun kv => match kv with
                               | (k, x) => repr_str k ++ ": " ++ py_repr x
                               end) fields)
          ++ "}"
  end.

(** What [f'{v}'] interpolates: [str(v)]. *)
Definition py_str (v : json) : string :=
  match v with
  | JStr s => s
  | _ => py_repr v
  end.

(** [v == 'literal'] for a string literal. *)
Definition eq_str (v : json) (lit : string) : bool :=
  match v with
  | JStr s => String.eqb s lit
  | _ => false
  end.

(* ===================================================================== *)
(** ** The data classes *)
(* ===================================================================== *)

(** [ScrapeRequest] is built by the caller; its fields carry their
    declared types. *)
Record ScrapeRequest := {
  city : string;
  state : string;
  filters : option dict;
  max_pages : Z
}.

(** [JobStatus] is filled straight from the decoded response, unchecked. *)
Record JobStatus := {
  job_id : json;
  status : json;
  progress : json;
  created_at : json;
  updated_at : json;
  completed_at : json;
  error : json
}.

(* ===================================================================== *)
(** ** Exceptions and outcomes *)
(* ===================================================================== *)

Inductive Exception : Type :=
| ConnectionError (reason : string)   (* requests: no response at all *)
| HTTPError (status_code : Z)         (* requests: raise_for_status *)
| JSONDecodeError                     (* requests: response.json() *)
| KeyError (key : string)
| TypeError
| AttributeError
| ValueError
| RuntimeError (msg : string)
| TimeoutError (msg : string).

(** The exceptions that belong to the HTTP library. *)
Definition is_requests_error (e : Exception) : bool :=
  match e with
  | ConnectionError _ | HTTPError _ | JSONDecodeError => true
  | _ => false
  end.

Inductive Outcome (A : Type) : Type :=
| Return (a : A)
| Raise (e : Exception)
| Diverge.   (* the loop budget ran out *)

Arguments Return {A} a.
Arguments Raise {A} e.
Arguments Diverge {A}.

(* ===================================================================== *)
(** ** The outside world *)
(* ===================================================================== *)

Inductive Method := GET | POST.

Record Request := {
  method : Method;
  url : string;
  headers : list (string * string);
  json_body : option json
}.

Record Response := {
  status_code : Z;
  body : option json     (* [None]: the body is not JSON *)
}.

Inductive Reply :=
| Refused (reason : string)
| Answered (r : Response).

Record World := {
  http_script : nat -> Reply;   (* reply to the n-th request, from 0 *)
  clock_script : nat -> Q;      (* value of the n-th [time.time()] *)
  sent : list Request;
  clock_reads : nat;
  slept : list Z;
  stdout : list string
}.

Definition M (A : Type) : Type := World -> Outcome A * World.

Definition ret {A} (a : A) : M A := fun w => (Return a, w).
Definition raise {A} (e : Exception) : M A := fun w => (Raise e, w).
Definition diverge {A} : M A := fun w => (Diverge, w).

Definition bind {A B} (m : M A) (f : A -> M B) : M B :=
  fun w =>
    match m w with
    | (Return a, w') => f a w'
    | (Raise e, w') => (Raise e, w')
    | (Diverge, w') => (Diverge, w')
    end.

Notation "x <- c ;; k" := (bind c (fun x => k))
  (at level 61, c at next level, right associativity).
Notation "c ;;; k" := (bind c (fun _ => k))
  (at level 61, right associativity).

(** *** Primitive interactions *)

Definition record_request (req : Request) (w : World) : World :=
  {| http_script := http_script w; clock_script := clock_script w;
     sent := (sent w ++ [req])%list; clock_reads := clock_reads w;
     slept := slept w; stdout := stdout w |}.

(** [session.get(...)] / [session.post(...)]: the request goes out, and
    either a response comes back or the library raises. *)
Definition session_request (req : Request) : M Response :=
  fun w =>
    let w' := record_request req w in
    match http_script w (List.length (sent w)) with
    | Refused reason => (Raise (ConnectionError reason), w')
    | Answered r => (Return r, w')
    end.

(** [response.raise_for_status()]: 4xx and 5xx raise. *)
Definition raise_for_status (r : Response) : M unit :=
  if ((400 <=? status_code r) && (status_code r <? 600))%Z
  then raise (HTTPError (status_code r))
  else ret tt.

(** [response.json()] *)
Definition response_json (r : Response) : M json :=
  match body r with
  | Some v => ret v
  | None => raise JSONDecodeError
  end.

(** [time.time()] *)
Definition time_time : M Q :=
  fun w =>
    (Return (clock_script w (clock_reads w)),
     {| http_script := http_script w; clock_script := clock_script w;
        sent := sent w; clock_reads := S (clock_reads w);
        slept := slept w; stdout := stdout w |}).

(** [time.sleep(secs)]: a negative length is a [ValueError]. *)
Definition time_sleep (secs : Z) : M unit :=
  if (secs <? 0)%Z then raise ValueError
  else fun w =>
    (Return tt,
     {| http_script := http_script w; clock_script := clock_script w;
        sent := sent w; clock_reads := clock_reads w;
        slept := (slept w ++ [secs])%list; stdout := stdout w |}).

Definition print (line : string) : M unit :=
  fun w =>
    (Return tt,
     {| http_script := http_script w; clock_script := clock_script w;
        sent := sent w; clock_reads := clock_reads w;
        slept := slept w; stdout := (stdout w ++ [line])%list |}).

(** [v[k]] for a string key. *)
Definition subscript (v : json) (k : string) : M json :=
  match v with
  | JObj d =>
      match dict_lookup k d with
      | Some x => ret x
      | None => raise (KeyError k)
      end
  | _ => raise TypeError
  end.

(** [v.get(k)] *)
Definition dict_get (v : json) (k : string) : M json :=
  match v with
  | JObj d =>
      match dict_lookup k d with
      | Some x => ret x
      | None => ret JNull
      end
  | _ => raise AttributeError
  end.

(* ===================================================================== *)
(** ** [ApartmentScraperClient] *)
(* ===================================================================== *)

(** [s.rstrip(c)] for a one-character set. *)
Fixpoint rstrip (c : ascii) (s : string) : string :=
  match s with
  | EmptyString => EmptyString
  | String a s' =>
      match rstrip c s' with
      | EmptyString => if Ascii.eqb a c then EmptyString else String a EmptyString
      | r => String a r
      end
  end.

(** Of the session, only the headers the client sets are kept. *)
Record ApartmentScraperClient := {
  base_url : string;
  api_key : option string;
  session_headers : list (string * string)
}.

Definition truthy_str (s : option string) : bool :=
  match s with
  | Some (String _ _) => true
  | _ => false
  end.

Definition init (base : string) (key : option string) : ApartmentScraperClient :=
  {| base_url := rstrip "/" base;
     api_key := key;
     session_headers :=
       if truthy_str key
       then [("Authorization", "Bearer " ++ match key with Some k => k | None => "None" end)]
       else [] |}.

Definition session_post (self : ApartmentScraperClient) (u : string)
    (payload : option json) : M Response :=
  session_request {| method := POST; url := u;
                     headers := session_headers self; json_body := payload |}.

Definition session_get (self : ApartmentScraperClient) (u : string) : M Response :=
  session_request {| method := GET; url := u;
                     headers := session_headers self; json_body := None |}.

Definition start_url (self : ApartmentScraperClient) : string :=
  base_url self ++ "/api/scrape/start".
Definition status_url (self : ApartmentScraperClient) (job : json) : string :=
  base_url self ++ "/api/scrape/status/" ++ py_str job.
Definition results_url (self : ApartmentScraperClient) (job : json) : string :=
  base_url self ++ "/api/scrape/results/" ++ py_str job.
Definition cancel_url (self : ApartmentScraperClient) (job : json) : string :=
  base_url self ++ "/api/scrape/cancel/" ++ py_str job.

(** [if request.filters:] — [None] and the empty dict are both falsy. *)
Definition truthy_dict (d : option dict) : bool :=
  match d with
  | Some (_ :: _) => true
  | _ => false
  end.

Definition start_payload (request : ScrapeRequest) : dict :=
  let payload := [("city", JStr (city request));
                  ("state", JStr (state request));
                  ("maxPages", JNum (max_pages request))] in
  if truthy_dict (filters request)
  then dict_set "filters"
         (match filters request with Some f => JObj f | None => JNull end)
         payload
  else payload.

Definition start_scrape (self : ApartmentScraperClient)
    (request : ScrapeRequest) : M json :=
  response <- session_post self (start_url self)
                (Some (JObj (start_payload request))) ;;
  raise_for_status response ;;;
  response_json response.

Definition get_status (self : ApartmentScraperClient) (job : json) : M JobStatus :=
  response <- session_get self (status_url self job) ;;
  raise_for_status response ;;;
  data <- response_json response ;;
  a_job_id <- subscript data "jobId" ;;
  a_status <- subscript data "status" ;;
  a_progress <- subscript data "progress" ;;
  a_created_at <- subscript data "createdAt" ;;
  a_updated_at <- subscript data "updatedAt" ;;
  a_completed_at <- dict_get data "completedAt" ;;
  a_error <- dict_get data "error" ;;
  ret {| job_id := a_job_id; status := a_status; progress := a_progress;
         created_at := a_created_at; updated_at := a_updated_at;
         completed_at := a_completed_at; error := a_error |}.

Definition get_results (self : ApartmentScraperClient) (job : json) : M json :=
  response <- session_get self (results_url self job) ;;
  raise_for_status response ;;;
  response_json response.

Definition cancel_job (self : ApartmentScraperClient) (job : json) : M json :=
  response <- session_post self (cancel_url self job) None ;;
  raise_for_status response ;;;
  response_json response.

(** [now - start_time < timeout] *)
Definition within (now start_time : Q) (timeout : Z) : bool :=
  negb (Qle_bool (inject_Z timeout) (now - start_time)%Q).

(** The [while] loop of [poll_until_complete]; [fuel] bounds the number of
    times the loop test is evaluated. *)
Fixpoint poll_loop (fuel : nat) (self : ApartmentScraperClient) (job : json)
    (interval timeout : Z) (start_time : Q) : M json :=
  match fuel with
  | O => diverge
  | S fuel' =>
      now <- time_time ;;
      if within now start_time timeout then
        st <- get_status self job ;;
        if eq_str (status st) "completed" then get_results self job
        else if eq_str (status st) "failed" then
          raise (RuntimeError ("Job failed: " ++ py_str (error st)))
        else if eq_str (status st) "cancelled" then
          raise (RuntimeError "Job was cancelled")
        else
          current_page <- subscript (progress st) "currentPage" ;;
          total_pages <- subscript (progress st) "totalPages" ;;
          listings_scraped <- subscript (progress st) "listingsScraped" ;;
          print ("Status: " ++ py_str (status st) ++ " - "
                 ++ "Page " ++ py_str current_page ++ "/" ++ py_str total_pages
                 ++ " - " ++ "Scraped: " ++ py_str listings_scraped) ;;;
          time_sleep interval ;;;
          poll_loop fuel' self job interval timeout start_time
      else
        raise (TimeoutError ("Job did not complete within "
                             ++ string_of_Z timeout ++ " seconds"))
  end.

Definition poll_until_complete (fuel : nat) (self : ApartmentScraperClient)
    (job : json) (interval timeout : Z) : M json :=
  start_time <- time_time ;;
  poll_loop fuel self job interval timeout start_time.

(** The defaults of the signatures: [interval: int = 5],
    [timeout: int = 300], [poll_interval: int = 5]. *)
Definition default_interval : Z := 5.
Definition default_timeout : Z := 300.

Definition scrape_and_wait (fuel : nat) (self : ApartmentScraperClient)
    (request : ScrapeRequest) (poll_interval : Z) : M json :=
  result <- start_scrape self request ;;
  job <- subscript result "jobId" ;;
  print ("Job started: " ++ py_str job) ;;;
  results <- poll_until_complete fuel self job poll_interval default_timeout ;;
  subscript results "results".

(* ===================================================================== *)
(** ** Vocabulary for the statements *)
(* ===================================================================== *)

Definition start_request (self : ApartmentScraperClient)
    (request : ScrapeRequest) : Request :=
  {| method := POST; url := start_url self; headers := session_headers self;
     json_body := Some (JObj (start_payload request)) |}.

Definition status_request (self : ApartmentScraperClient) (job : json) : Request :=
  {| method := GET; url := status_url self job; headers := session_headers self;
     json_body := None |}.

Definition results_request (self : ApartmentScraperClient) (job : json) : Request :=
  {| method := GET; url := results_url self job; headers := session_headers self;
     json_body := None |}.

Definition cancel_request (self : ApartmentScraperClient) (job : json) : Request :=
  {| method := POST; url := cancel_url self job; headers := session_headers self;
     json_body := None |}.

(** The body [start_scrape] posts: the JSON of the one request it adds to
    those already sent. *)
Definition posted_body (self : ApartmentScraperClient) (request : ScrapeRequest)
    (w : World) : option json :=
  match skipn (List.length (sent w)) (sent (snd (start_scrape self request w))) with
  | [req] => json_body req
  | _ => None
  end.

(** The reply the world holds for the i-th request from now. *)
Definition nth_reply (w : World) (i : nat) : Reply :=
  http_script w (List.length (sent w) + i)%nat.

(** The i-th clock reading from now. *)
Definition nth_reading (w : World) (i : nat) : Q :=
  clock_script w (clock_reads w + i)%nat.

(** A reply that is a transport or HTTP failure, and the library error
    it becomes. *)
Definition transport_failure (r : Reply) : option Exception :=
  match r with
  | Refused reason => Some (ConnectionError reason)
  | Answered resp =>
      if ((400 <=? status_code resp) && (status_code resp <? 600))%Z
      then Some (HTTPError (status_code resp))
      else None
  end.

(** What a reply amounts to for the three operations that hand back the
    decoded body. *)
Definition decoded (r : Reply) : Outcome json :=
  match transport_failure r with
  | Some e => Raise e
  | None =>
      match r with
      | Answered {| status_code := _; body := Some v |} => Return v
      | _ => Raise JSONDecodeError
      end
  end.

(** The job status a reply carries, when it is a successful response whose
    body is an object with the five required fields. *)
Definition polled (r : Reply) : option JobStatus :=
  match transport_failure r, r with
  | None, Answered {| status_code := _; body := Some (JObj d) |} =>
      match dict_lookup "jobId" d, dict_lookup "status" d,
            dict_lookup "progress" d, dict_lookup "createdAt" d,
            dict_lookup "updatedAt" d with
      | Some j, Some s, Some p, Some c, Some u =>
          Some {| job_id := j; status := s; progress := p;
                  created_at := c; updated_at := u;
                  completed_at := match dict_lookup "completedAt" d with
                                  | Some x => x | None => JNull end;
                  error := match dict_lookup "error" d with
                           | Some x => x | None => JNull end |}
      | _, _, _, _, _ => None
      end
  | _, _ => None
  end.

Definition terminal (st : JobStatus) : bool :=
  eq_str (status st) "completed" || eq_str (status st) "failed"
  || eq_str (status st) "cancelled".

(** The progress mapping has the three counters the loop prints. *)
Definition has_counters (st : JobStatus) : bool :=
  match progress st with
  | JObj d =>
      match dict_lookup "currentPage" d, dict_lookup "totalPages" d,
            dict_lookup "listingsScraped" d with
      | Some _, Some _, Some _ => true
      | _, _, _ => false
      end
  | _ => false
  end.

(** A reply carrying a well-formed status that is not terminal. *)
Definition pending_reply (r : Reply) : bool :=
  match polled r with
  | Some st => negb (terminal st) && has_counters st
  | None => false
  end.

Fixpoint ends_with (c : ascii) (s : string) : bool :=
  match s with
  | EmptyString => false
  | String a EmptyString => Ascii.eqb a c
  | String _ s' => ends_with c s'
  end.

Fixpoint replicate (n : nat) (c : ascii) : string :=
  match n with
  | O => EmptyString
  | S n' => String c (replicate n' c)
  end.

(** The world after the loop test has read the clock. *)
Definition tick (w : World) : World := snd (time_time w).

(** What the world looks like after [n] polls that found the job pending:
    the scripts are untouched, [n] status requests went out, the clock was
    read [n] times and the loop slept [n] times. *)
Record advanced (self : ApartmentScraperClient) (job : json) (interval : Z)
    (n : nat) (w w' : World) : Prop := {
  adv_http : http_script w' = http_script w;
  adv_clock : clock_script w' = clock_script w;
  adv_sent : sent w' = (sent w ++ repeat (status_request self job) n)%list;
  adv_reads : clock_reads w' = (clock_reads w + n)%nat;
  adv_slept : slept w' = (slept w ++ repeat interval n)%list
}.

(* ===================================================================== *)
(** ** Scripted worlds for concrete runs *)
(* ===================================================================== *)

Definition ok_reply (v : json) : Reply :=
  Answered {| status_code := 200; body := Some v |}.

Definition status_payload (s : string) (extra : dict) : json :=
  JObj ([("jobId", JStr "job-1"); ("status", JStr s);
         ("progress", JObj [("currentPage", JNum 2); ("totalPages", JNum 5);
                            ("listingsScraped", JNum 40)]);
         ("createdAt", JStr "2024-01-01T00:00:00Z");
         ("updatedAt", JStr "2024-01-01T00:00:10Z")] ++ extra)%list.

Definition results_payload : json :=
  JObj [("results", JArr [JObj [("propertyName", JStr "The Vue");
                                ("minPrice", JNum 1450)]]);
        ("total", JNum 1)].

Definition started_payload : json :=
  JObj [("jobId", JStr "job-1"); ("status", JStr "pending")].

(** A fresh world answering from a list of replies and showing a list of
    clock readings. *)
Definition scripted (replies : list Reply) (readings : list Q) : World :=
  {| http_script := fun n => nth n replies (Refused "no more replies");
     clock_script := fun n => nth n readings 0%Q;
     sent := []; clock_reads := 0; slept := []; stdout := [] |}.

Definition seconds (l : list Z) : list Q := map inject_Z l.

Definition demo_client : ApartmentScraperClient :=
  init "https://apartment-scraper.workers.dev//" (Some "secret").

Definition atlanta : ScrapeRequest :=
  {| city := "atlanta"; state := "ga";
     filters := Some [("minPrice", JNum 1000); ("beds", JArr [JNum 1; JNum 2])];
     max_pages := 5 |}.

Definition atlanta_empty_filters : ScrapeRequest :=
  {| city := "atlanta"; state := "ga"; filters := Some []; max_pages := 5 |}.

Definition atlanta_no_filters : ScrapeRequest :=
  {| city := "atlanta"; state := "ga"; filters := None; max_pages := 5 |}.

(** Two pending polls, then the job is completed and its results fetched. *)
Definition world_completed : World :=
  scripted [ok_reply (status_payload "processing" []);
            ok_reply (status_payload "processing" []);
            ok_reply (status_payload "completed"
                        [("completedAt", JStr "2024-01-01T00:00:20Z")]);
            ok_reply results_payload]
           (seconds [100; 100; 105; 110; 115]).

Definition world_failed : World :=
  scripted [ok_reply (status_payload "processing" []);
            ok_reply (status_payload "failed" [("error", JStr "X")])]
           (seconds [100; 100; 105; 110]).

Definition world_cancelled : World :=
  scripted [ok_reply (status_payload "pending" []);
            ok_reply (status_payload "cancelled" [])]
           (seconds [100; 100; 105; 110]).

(** The job stays pending and the clock passes the deadline. *)
Definition world_stuck : World :=
  scripted [ok_reply (status_payload "processing" []);
            ok_reply (status_payload "processing" []);
            ok_reply (status_payload "processing" [])]
           (seconds [100; 100; 100; 130]).

(** One pending poll, then the server answers 503. *)
Definition world_outage : World :=
  scripted [ok_reply (status_payload "processing" []);
            Answered {| status_code := 503; body := None |}]
           (seconds [100; 100; 105; 110]).

Definition world_refused : World :=
  scripted [Refused "connection reset"] (seconds [100]).

(** A whole [scrape_and_wait] session. *)
Definition world_session : World :=
  scripted [ok_reply started_payload;
            ok_reply (status_payload "processing" []);
            ok_reply (status_payload "completed" []);
            ok_reply results_payload]
           (seconds [100; 100; 105; 110]).

(* ===================================================================== *)
(** ** The usage example [basic_example] *)
(* ===================================================================== *)

Definition basic_client : ApartmentScraperClient :=
  init "https://apartment-scraper.workers.dev" None.

Definition basic_request : ScrapeRequest :=
  {| city := "atlanta"; state := "ga";
     filters := Some [("minPrice", JNum 1000); ("maxPrice", JNum 3000);
                      ("beds", JArr [JNum 1; JNum 2])];
     max_pages := 3 |}.

Definition basic_example : M unit :=
  let client := basic_client in
  let request := basic_request in
  result <- start_scrape client request ;;
  started <- subscript result "jobId" ;;
  print ("Job started: " ++ py_str started) ;;;
  job <- subscript result "jobId" ;;
  st <- get_status client job ;;
  print ("Status: " ++ py_str (status st)).

(* ===================================================================== *)
(** ** More vocabulary *)
(* ===================================================================== *)

(** The fields [get_status] subscripts, and the counters the loop prints,
    in the order the code reads them. *)
Definition required_fields : list string :=
  ["jobId"; "status"; "progress"; "createdAt"; "updatedAt"].

Definition printed_counters : list string :=
  ["currentPage"; "totalPages"; "listingsScraped"].

Definition absent (d : dict) (k : string) : bool :=
  match dict_lookup k d with
  | Some _ => false
  | None => true
  end.

(** The first of [ks] that [d] does not have. *)
Definition first_missing (ks : list string) (d : dict) : option string :=
  find (absent d) ks.

Definition is_object (v : json) : bool :=
  match v with
  | JObj _ => true
  | _ => false
  end.

(** The requests a run added to those already sent. *)
Definition new_requests (w w' : World) : list Request :=
  skipn (List.length (sent w)) (sent w').

(** The [Authorization] header the constructor installs for a key. *)
Definition bearer (key : option string) : list (string * string) :=
  match key with
  | Some (String a s) => [("Authorization", "Bearer " ++ String a s)]
  | _ => []
  end.

(** More scripted worlds. *)

(** The job never leaves [processing] and the clock stands still. *)
Definition world_frozen : World :=
  {| http_script := fun _ => ok_reply (status_payload "processing" []);
     clock_script := fun _ => inject_Z 100;
     sent := []; clock_reads := 0; slept := []; stdout := [] |}.

(** A status response without the field updatedAt. *)
Definition world_truncated_status : World :=
  scripted [ok_reply (JObj [("jobId", JStr "job-1"); ("status", JStr "pending");
                            ("progress", JObj []);
                            ("createdAt", JStr "2024-01-01T00:00:00Z")])]
           (seconds [100; 100]).

(** A 200 response whose body is an HTML page. *)
Definition world_html : World :=
  scripted [Answered {| status_code := 200; body := None |}] (seconds [100; 100]).

(** A 200 response whose body is a JSON array. *)
Definition world_array : World :=
  scripted [ok_reply (JArr [JNum 1; JNum 2])] (seconds [100; 100]).

(** One pending poll, then the job has failed and no error is given. *)
Definition world_failed_silently : World :=
  scripted [ok_reply (status_payload "processing" []);
            ok_reply (status_payload "failed" [])]
           (seconds [100; 100; 105; 110]).

(** A pending status whose progress lacks listingsScraped. *)
Definition world_no_counter : World :=
  scripted [ok_reply (JObj [("jobId", JStr "job-1"); ("status", JStr "pending");
                            ("progress", JObj [("currentPage", JNum 0);
                                               ("totalPages", JNum 5)]);
                            ("createdAt", JStr "2024-01-01T00:00:00Z");
                            ("updatedAt", JStr "2024-01-01T00:00:00Z")])]
           (seconds [100; 100; 105]).

(** The start response has no jobId. *)
Definition world_no_job_id : World :=
  scripted [ok_reply (JObj [("status", JStr "pending")])] (seconds [100]).

(** The results payload has no results. *)
Definition world_no_results : World :=
  scripted [ok_reply started_payload;
            ok_reply (status_payload "completed" []);
            ok_reply (JObj [("total", JNum 0)])]
           (seconds [100; 100; 105]).

(** A session whose job fails. *)
Definition world_session_failed : World :=
  scripted [ok_reply started_payload;
            ok_reply (status_payload "failed" [("error", JStr "blocked")])]
           (seconds [100; 100; 105]).

(** What [basic_example] meets on a good day. *)
Definition world_basic : World :=
  scripted [ok_reply started_payload;
            ok_reply (status_payload "pending" [])] [].

(* ===================================================================== *)
(** ** What each single-request operation does to the world *)
(* ===================================================================== *)

Ltac run_request :=
  unfold bind, session_post, session_get, session_request, raise_for_status,
    response_json, raise, ret, decoded, transport_failure, nth_reply;
  cbn [fst snd].

Lemma next_reply (w : World) : nth_reply w 0 = http_script w (List.length (sent w)).
Proof. unfold nth_reply. now rewrite Nat.add_0_r. Qed.

Lemma start_scrape_run self request w :
  start_scrape self request w =
  (decoded (nth_reply w 0), record_request (start_request self request) w).
Proof.
  unfold start_scrape. rewrite next_reply. run_request.
  destruct (http_script w (List.length (sent w))) as [reason|[code [v|]]]; cbn;
    try reflexivity; destruct ((400 <=? code) && (code <? 600))%Z; reflexivity.
Qed.

Lemma get_results_run self job w :
  get_results self job w =
  (decoded (nth_reply w 0), record_request (results_request self job) w).
Proof.
  unfold get_results. rewrite next_reply. run_request.
  destruct (http_script w (List.length (sent w))) as [reason|[code [v|]]]; cbn;
    try reflexivity; destruct ((400 <=? code) && (code <? 600))%Z; reflexivity.
Qed.

Lemma cancel_job_run self job w :
  cancel_job self job w =
  (decoded (nth_reply w 0), record_request (cancel_request self job) w).
Proof.
  unfold cancel_job. rewrite next_reply. run_request.
  destruct (http_script w (List.length (sent w))) as [reason|[code [v|]]]; cbn;
    try reflexivity; destruct ((400 <=? code) && (code <? 600))%Z; reflexivity.
Qed.

Lemma get_status_world self job w :
  snd (get_status self job w) = record_request (status_request self job) w.
Proof.
  unfold get_status. run_request. unfold subscript, dict_get, raise, ret.
  destruct (http_script w (List.length (sent w))) as [reason|[code [v|]]]; cbn;
    try reflexivity;
    destruct ((400 <=? code) && (code <? 600))%Z; cbn; try reflexivity.
  destruct v; cbn; try reflexivity.
  repeat match goal with
         | |- context [dict_lookup ?k ?d] => destruct (dict_lookup k d); cbn
         end; reflexivity.
Qed.

Lemma get_status_failure self job w e :
  transport_failure (nth_reply w 0) = Some e ->
  get_status self job w = (Raise e, record_request (status_request self job) w).
Proof.
  rewrite next_reply. unfold get_status. run_request.
  destruct (http_script w (List.length (sent w))) as [reason|[code b]]; cbn.
  - intros [= <-]. reflexivity.
  - destruct ((400 <=? code) && (code <? 600))%Z; cbn; [|discriminate].
    intros [= <-]. reflexivity.
Qed.

Lemma get_status_polled self job w st :
  polled (nth_reply w 0) = Some st ->
  get_status self job w = (Return st, record_request (status_request self job) w).
Proof.
  rewrite next_reply. unfold get_status, polled. run_request.
  unfold subscript, dict_get, raise, ret.
  destruct (http_script w (List.length (sent w))) as [reason|[code [v|]]]; cbn;
    try discriminate;
    destruct ((400 <=? code) && (code <? 600))%Z; cbn; try discriminate.
  destruct v; try discriminate.
  destruct (dict_lookup "jobId" fields); try discriminate.
  destruct (dict_lookup "status" fields); try discriminate.
  destruct (dict_lookup "progress" fields); try discriminate.
  destruct (dict_lookup "createdAt" fields); try discriminate.
  destruct (dict_lookup "updatedAt" fields); try discriminate.
  intros [= <-].
  destruct (dict_lookup "completedAt" fields), (dict_lookup "error" fields);
    reflexivity.
Qed.

(** Conversely, [get_status] returns a status only from such a reply. *)
Lemma get_status_returns self job w st w' :
  get_status self job w = (Return st, w') ->
  polled (nth_reply w 0) = Some st.
Proof.
  rewrite next_reply. unfold get_status, polled. run_request.
  unfold subscript, dict_get, raise, ret.
  destruct (http_script w (List.length (sent w))) as [reason|[code [v|]]]; cbn;
    try discriminate;
    destruct ((400 <=? code) && (code <? 600))%Z; cbn; try discriminate.
  destruct v; try discriminate.
  destruct (dict_lookup "jobId" fields); try discriminate.
  destruct (dict_lookup "status" fields); try discriminate.
  destruct (dict_lookup "progress" fields); try discriminate.
  destruct (dict_lookup "createdAt" fields); try discriminate.
  destruct (dict_lookup "updatedAt" fields); try discriminate.
  destruct (dict_lookup "completedAt" fields), (dict_lookup "error" fields);
    intros [= <- _]; reflexivity.
Qed.

(* ===================================================================== *)
(** ** The poll loop, one iteration at a time *)
(* ===================================================================== *)

Section PollLoop.

Variable self : ApartmentScraperClient.
Variable job : json.
Variables interval timeout : Z.
Variable start_time : Q.

Lemma nth_reply_tick w i : nth_reply (tick w) i = nth_reply w i.
Proof. reflexivity. Qed.

(** The test fails: the loop is left and the timeout is raised, with no
    request sent. *)
Lemma poll_loop_timeout fuel w :
  within (nth_reading w 0) start_time timeout = false ->
  poll_loop (S fuel) self job interval timeout start_time w =
  (Raise (TimeoutError ("Job did not complete within "
                        ++ string_of_Z timeout ++ " seconds")), tick w).
Proof.
  unfold nth_reading. rewrite Nat.add_0_r. intros Hout.
  cbn [poll_loop]. unfold bind at 1, time_time at 1. rewrite Hout. reflexivity.
Qed.

(** The test passes and the poll itself fails in transport. *)
Lemma poll_loop_failure fuel w e :
  within (nth_reading w 0) start_time timeout = true ->
  transport_failure (nth_reply w 0) = Some e ->
  poll_loop (S fuel) self job interval timeout start_time w =
  (Raise e, record_request (status_request self job) (tick w)).
Proof.
  unfold nth_reading. rewrite Nat.add_0_r. intros Hin Hfail.
  cbn [poll_loop]. unfold bind at 1, time_time at 1. rewrite Hin.
  unfold bind at 1.
  rewrite (get_status_failure self job _ e) by exact Hfail. reflexivity.
Qed.

(** The test passes and the poll yields a status: the three branches that
    leave the loop. *)
Lemma poll_loop_status fuel w st :
  within (nth_reading w 0) start_time timeout = true ->
  polled (nth_reply w 0) = Some st ->
  poll_loop (S fuel) self job interval timeout start_time w =
  let w' := record_request (status_request self job) (tick w) in
  if eq_str (status st) "completed" then get_results self job w'
  else if eq_str (status st) "failed" then
    (Raise (RuntimeError ("Job failed: " ++ py_str (error st))), w')
  else if eq_str (status st) "cancelled" then
    (Raise (RuntimeError "Job was cancelled"), w')
  else
    (current_page <- subscript (progress st) "currentPage" ;;
     total_pages <- subscript (progress st) "totalPages" ;;
     listings_scraped <- subscript (progress st) "listingsScraped" ;;
     print ("Status: " ++ py_str (status st) ++ " - "
            ++ "Page " ++ py_str current_page ++ "/" ++ py_str total_pages
            ++ " - " ++ "Scraped: " ++ py_str listings_scraped) ;;;
     time_sleep interval ;;;
     poll_loop fuel self job interval timeout start_time) w'.
Proof.
  unfold nth_reading. rewrite Nat.add_0_r. intros Hin Hst.
  cbn [poll_loop]. unfold bind at 1, time_time at 1. rewrite Hin.
  unfold bind at 1.
  rewrite (get_status_polled self job _ st) by exact Hst.
  cbv zeta.
  destruct (eq_str (status st) "completed"); [reflexivity|].
  destruct (eq_str (status st) "failed"); [reflexivity|].
  destruct (eq_str (status st) "cancelled"); reflexivity.
Qed.

Lemma advanced_nth_reply n w w' i :
  advanced self job interval n w w' -> nth_reply w' i = nth_reply w (n + i).
Proof.
  intros [Hh _ Hs _ _]. unfold nth_reply.
  rewrite Hh, Hs, length_app, repeat_length. f_equal. lia.
Qed.

Lemma advanced_nth_reading n w w' i :
  advanced self job interval n w w' -> nth_reading w' i = nth_reading w (n + i).
Proof.
  intros [_ Hc _ Hr _]. unfold nth_reading. rewrite Hc, Hr. f_equal. lia.
Qed.

(** One pending iteration: the loop comes back to its head. *)
Lemma poll_loop_pending fuel w :
  (0 <= interval)%Z ->
  within (nth_reading w 0) start_time timeout = true ->
  pending_reply (nth_reply w 0) = true ->
  exists w',
    poll_loop (S fuel) self job interval timeout start_time w =
    poll_loop fuel self job interval timeout start_time w'
    /\ advanced self job interval 1 w w'.
Proof.
  intros Hint Hin Hpend. unfold pending_reply in Hpend.
  destruct (polled (nth_reply w 0)) as [st|] eqn:Hst; [|discriminate].
  apply andb_true_iff in Hpend as [Hterm Hcnt].
  apply negb_true_iff in Hterm. unfold terminal in Hterm.
  apply orb_false_iff in Hterm as [Hterm Hcan].
  apply orb_false_iff in Hterm as [Hcomp Hfail].
  rewrite (poll_loop_status fuel w st Hin Hst). cbv zeta.
  rewrite Hcomp, Hfail, Hcan.
  unfold has_counters in Hcnt.
  destruct (progress st) as [| | | |?|d]; try discriminate.
  unfold subscript.
  destruct (dict_lookup "currentPage" d); [|discriminate].
  destruct (dict_lookup "totalPages" d); [|discriminate].
  destruct (dict_lookup "listingsScraped" d); [|discriminate].
  unfold bind, ret, print, time_sleep.
  assert (Hneg : (interval <? 0)%Z = false) by (apply Z.ltb_ge; exact Hint).
  rewrite Hneg.
  eexists. split; [reflexivity|].
  split; cbn; try reflexivity. lia.
Qed.

(** Any number of pending iterations. *)
Lemma poll_loop_pending_prefix k : forall fuel w,
  (k = 0%nat \/ (0 <= interval)%Z) ->
  (forall i, (i < k)%nat ->
     within (nth_reading w i) start_time timeout = true) ->
  (forall i, (i < k)%nat -> pending_reply (nth_reply w i) = true) ->
  exists w',
    poll_loop (k + fuel) self job interval timeout start_time w =
    poll_loop fuel self job interval timeout start_time w'
    /\ advanced self job interval k w w'.
Proof.
  induction k as [|k IH]; intros fuel w Hint Hin Hpend.
  - exists w. split; [reflexivity|].
    split; cbn; rewrite ?app_nil_r; auto.
  - assert (Hint' : (0 <= interval)%Z) by (destruct Hint; [discriminate|assumption]).
    destruct (poll_loop_pending (k + fuel) w Hint') as (w1 & Hrun & Hadv).
    + apply Hin. lia.
    + apply Hpend. lia.
    + destruct (IH fuel w1) as (w' & Hrun' & Hadv').
      * right. exact Hint'.
      * intros i Hi. rewrite (advanced_nth_reading 1 w w1) by exact Hadv.
        apply Hin. lia.
      * intros i Hi. rewrite (advanced_nth_reply 1 w w1) by exact Hadv.
        apply Hpend. lia.
      * exists w'. split.
        -- cbn [Nat.add]. rewrite Hrun. exact Hrun'.
        -- destruct Hadv as [h1 c1 s1 r1 z1], Hadv' as [h2 c2 s2 r2 z2].
           split.
           ++ congruence.
           ++ congruence.
           ++ rewrite s2, s1. cbn [repeat]. rewrite <- app_assoc. reflexivity.
           ++ lia.
           ++ rewrite z2, z1. cbn [repeat]. rewrite <- app_assoc. reflexivity.
Qed.

End PollLoop.

(** The budget is only a bound: once the loop has an outcome, a larger
    budget gives the same one. *)
Lemma poll_loop_fuel_mono self job interval timeout t0 n :
  forall m w r w',
    poll_loop n self job interval timeout t0 w = (r, w') ->
    r <> Diverge ->
    (n <= m)%nat ->
    poll_loop m self job interval timeout t0 w = (r, w').
Proof.
  induction n as [|n IH]; intros m w r w' Hrun Hnd Hle.
  - cbn in Hrun. injection Hrun as <- <-. congruence.
  - destruct m as [|m]; [lia|].
    cbn [poll_loop] in *. unfold bind in *.
    destruct (time_time w) as [[now| |] w1]; try exact Hrun.
    destruct (within now t0 timeout); [|exact Hrun].
    destruct (get_status self job w1) as [[st| |] w2]; try exact Hrun.
    destruct (eq_str (status st) "completed"); [exact Hrun|].
    destruct (eq_str (status st) "failed"); [exact Hrun|].
    destruct (eq_str (status st) "cancelled"); [exact Hrun|].
    repeat match goal with
           | |- context [subscript ?v ?key ?x] =>
               destruct (subscript v key x) as [[?| |] ?]; try exact Hrun
           end.
    unfold print in *.
    destruct (time_sleep interval _) as [[?| |] ?]; try exact Hrun.
    apply IH; [exact Hrun|exact Hnd|lia].
Qed.

Lemma poll_until_complete_fuel_mono self job interval timeout n m w r w' :
  poll_until_complete n self job interval timeout w = (r, w') ->
  r <> Diverge ->
  (n <= m)%nat ->
  poll_until_complete m self job interval timeout w = (r, w').
Proof.
  unfold poll_until_complete, bind.
  destruct (time_time w) as [[t0| |] w1]; try (intros; assumption).
  apply poll_loop_fuel_mono.
Qed.

(* ===================================================================== *)
(** ** The constructor and the request bodies *)
(* ===================================================================== *)

Lemma rstrip_suffix c s : exists n, s = rstrip c s ++ replicate n c.
Proof.
  induction s as [|a s [n IH]].
  - exists 0%nat. reflexivity.
  - cbn [rstrip]. destruct (rstrip c s) as [|b r] eqn:Hr.
    + cbn in IH. destruct (Ascii.eqb a c) eqn:Hac.
      * apply Ascii.eqb_eq in Hac. subst a. exists (S n). cbn. now rewrite <- IH.
      * exists n. cbn. now rewrite <- IH.
    + exists n. cbn. cbn in IH. now rewrite <- IH.
Qed.

Lemma rstrip_no_trailing c s : ends_with c (rstrip c s) = false.
Proof.
  induction s as [|a s IH].
  - reflexivity.
  - cbn [rstrip]. destruct (rstrip c s) as [|b r] eqn:Hr.
    + destruct (Ascii.eqb a c) eqn:Hac; cbn; [reflexivity|exact Hac].
    + exact IH.
Qed.

Lemma sent_record_request req w :
  sent (record_request req w) = (sent w ++ [req])%list.
Proof. reflexivity. Qed.

(** C9: the constructor stores the base URL without its trailing slashes
    (the argument is the stored value followed only by slashes, and the
    stored value does not end in one), and each of the four endpoint URLs
    the client requests is the stored value, one slash, and the path. *)
Theorem init_strips_trailing_slashes (base : string) (key : option string) :
  let self := init base key in
  base_url self = rstrip "/" base
  /\ (exists n, base = base_url self ++ replicate n "/")
  /\ ends_with "/" (base_url self) = false
  /\ (forall request w,
        map url (sent (snd (start_scrape self request w))) =
        (map url (sent w) ++ [(base_url self ++ "/" ++ "api/scrape/start")%string])%list)
  /\ (forall job w,
        map url (sent (snd (get_status self job w))) =
        (map url (sent w)
           ++ [(base_url self ++ "/" ++ "api/scrape/status/" ++ py_str job)%string])%list)
  /\ (forall job w,
        map url (sent (snd (get_results self job w))) =
        (map url (sent w)
           ++ [(base_url self ++ "/" ++ "api/scrape/results/" ++ py_str job)%string])%list)
  /\ (forall job w,
        map url (sent (snd (cancel_job self job w))) =
        (map url (sent w)
           ++ [(base_url self ++ "/" ++ "api/scrape/cancel/" ++ py_str job)%string])%list).
Proof.
  cbv zeta. split; [reflexivity|]. split; [apply rstrip_suffix|].
  split; [apply rstrip_no_trailing|].
  repeat split; intros.
  - rewrite start_scrape_run. cbn [snd]. rewrite sent_record_request, map_app.
    reflexivity.
  - rewrite get_status_world, sent_record_request, map_app. reflexivity.
  - rewrite get_results_run. cbn [snd]. rewrite sent_record_request, map_app.
    reflexivity.
  - rewrite cancel_job_run. cbn [snd]. rewrite sent_record_request, map_app.
    reflexivity.
Qed.

Example init_strips_demo :
  base_url demo_client = "https://apartment-scraper.workers.dev"
  /\ start_url demo_client = "https://apartment-scraper.workers.dev/api/scrape/start".
Proof. split; reflexivity. Qed.

Lemma posted_body_payload self request w :
  posted_body self request w = Some (JObj (start_payload request)).
Proof.
  unfold posted_body. rewrite start_scrape_run. cbn [snd].
  rewrite sent_record_request, skipn_app, skipn_all, Nat.sub_diag.
  reflexivity.
Qed.

(** C5, as the code has it: the posted body has the keys city, state and
    maxPages with the request's values, and the key filters, with the
    request's mapping, exactly when that mapping is present and not empty;
    there is no other key. *)
Theorem start_scrape_body (self : ApartmentScraperClient)
    (request : ScrapeRequest) (w : World) :
  exists payload,
    posted_body self request w = Some (JObj payload)
    /\ keys payload =
       (["city"; "state"; "maxPages"]
          ++ match filters request with
             | Some (_ :: _) => ["filters"]
             | _ => []
             end)%list
    /\ dict_lookup "city" payload = Some (JStr (city request))
    /\ dict_lookup "state" payload = Some (JStr (state request))
    /\ dict_lookup "maxPages" payload = Some (JNum (max_pages request))
    /\ dict_lookup "filters" payload =
       match filters request with
       | Some (x :: f) => Some (JObj (x :: f))
       | _ => None
       end.
Proof.
  exists (start_payload request). split; [apply posted_body_payload|].
  unfold start_payload. destruct (filters request) as [[|x f]|]; cbn;
    repeat split; reflexivity.
Qed.

(** C5, as stated, fails: a request whose filters mapping is present but
    empty is posted without the key filters. *)
Lemma start_scrape_body_drops_empty_filters :
  filters atlanta_empty_filters <> None
  /\ exists payload,
       posted_body demo_client atlanta_empty_filters (scripted [] []) =
       Some (JObj payload)
       /\ ~ In "filters" (keys payload).
Proof.
  split; [discriminate|].
  eexists. split; [reflexivity|].
  cbn. intros [H|[H|[H|[]]]]; discriminate.
Qed.

(** C10: an empty filters mapping is treated like an absent one; the
    posted body has no filters key and equals the body posted for the same
    request without filters. *)
Theorem start_scrape_empty_filters (self : ApartmentScraperClient)
    (request : ScrapeRequest) (w : World) :
  filters request = Some [] ->
  exists payload,
    posted_body self request w = Some (JObj payload)
    /\ ~ In "filters" (keys payload)
    /\ dict_lookup "filters" payload = None
    /\ posted_body self
         {| city := city request; state := state request; filters := None;
            max_pages := max_pages request |} w = Some (JObj payload).
Proof.
  intros Hempty. exists (start_payload request).
  rewrite !posted_body_payload. unfold start_payload. rewrite Hempty. cbn.
  repeat split; try reflexivity.
  intros [H|[H|[H|[]]]]; discriminate.
Qed.

Lemma start_scrape_empty_filters_witness :
  exists payload,
    posted_body demo_client atlanta_empty_filters (scripted [] []) =
    Some (JObj payload)
    /\ ~ In "filters" (keys payload)
    /\ dict_lookup "filters" payload = None
    /\ posted_body demo_client atlanta_no_filters (scripted [] []) =
       Some (JObj payload).
Proof.
  apply (start_scrape_empty_filters demo_client atlanta_empty_filters
           (scripted [] [])).
  reflexivity.
Defined.

(* ===================================================================== *)
(** ** [get_status] *)
(* ===================================================================== *)

(** C8: whatever the world has been through, [get_status] returns the
    [JobStatus] built from the fields of the response it has just
    received, with [None] for an absent completedAt or error. *)
Theorem get_status_from_payload (self : ApartmentScraperClient) (job : json)
    (w : World) (code : Z) (d : dict) (j s p c u : json) :
  nth_reply w 0 = Answered {| status_code := code; body := Some (JObj d) |} ->
  ((400 <=? code) && (code <? 600))%Z = false ->
  dict_lookup "jobId" d = Some j ->
  dict_lookup "status" d = Some s ->
  dict_lookup "progress" d = Some p ->
  dict_lookup "createdAt" d = Some c ->
  dict_lookup "updatedAt" d = Some u ->
  get_status self job w =
  (Return {| job_id := j; status := s; progress := p;
             created_at := c; updated_at := u;
             completed_at := match dict_lookup "completedAt" d with
                             | Some x => x
                             | None => JNull
                             end;
             error := match dict_lookup "error" d with
                      | Some x => x
                      | None => JNull
                      end |},
   record_request (status_request self job) w).
Proof.
  intros Hreply Hcode Hj Hs Hp Hc Hu.
  apply get_status_polled. unfold polled, transport_failure.
  rewrite Hreply. cbn. rewrite Hcode, Hj, Hs, Hp, Hc, Hu. reflexivity.
Qed.

(** Two polls in a row against [world_completed], the second one reading
    the third scripted reply: each result is the status of its own
    response. *)
Lemma get_status_from_payload_witness :
  get_status demo_client (JStr "job-1") world_completed =
  (Return {| job_id := JStr "job-1"; status := JStr "processing";
             progress := JObj [("currentPage", JNum 2); ("totalPages", JNum 5);
                               ("listingsScraped", JNum 40)];
             created_at := JStr "2024-01-01T00:00:00Z";
             updated_at := JStr "2024-01-01T00:00:10Z";
             completed_at := JNull; error := JNull |},
   record_request (status_request demo_client (JStr "job-1")) world_completed).
Proof.
  apply (get_status_from_payload demo_client (JStr "job-1") world_completed 200
           [("jobId", JStr "job-1"); ("status", JStr "processing");
            ("progress", JObj [("currentPage", JNum 2); ("totalPages", JNum 5);
                               ("listingsScraped", JNum 40)]);
            ("createdAt", JStr "2024-01-01T00:00:00Z");
            ("updatedAt", JStr "2024-01-01T00:00:10Z")]);
    reflexivity.
Defined.

(* ===================================================================== *)
(** ** [poll_until_complete] *)
(* ===================================================================== *)

(** The first [k] polls find the job pending: the call reaches the loop
    head for the [k]-th time. *)
Lemma poll_until_complete_reach self job interval timeout k m w :
  (k = 0%nat \/ (0 <= interval)%Z) ->
  (forall i, (i < k)%nat ->
     within (nth_reading w (S i)) (nth_reading w 0) timeout = true) ->
  (forall i, (i < k)%nat -> pending_reply (nth_reply w i) = true) ->
  exists w',
    poll_until_complete (k + m) self job interval timeout w =
    poll_loop m self job interval timeout (nth_reading w 0) w'
    /\ advanced self job interval k (tick w) w'.
Proof.
  intros Hint Hin Hpend.
  unfold poll_until_complete, bind at 1.
  change (time_time w) with (Return (clock_script w (clock_reads w)), tick w).
  cbv iota beta.
  replace (clock_script w (clock_reads w)) with (nth_reading w 0)
    by (unfold nth_reading; now rewrite Nat.add_0_r).
  apply poll_loop_pending_prefix; try assumption.
  intros i Hi. specialize (Hin i Hi).
  unfold nth_reading in *. cbn.
  rewrite Nat.add_succ_r in Hin. exact Hin.
Qed.

Lemma advanced_tick_reply self job interval k w w' i :
  advanced self job interval k (tick w) w' ->
  nth_reply w' i = nth_reply w (k + i).
Proof.
  intros Hadv. rewrite (advanced_nth_reply self job interval k (tick w) w' i Hadv).
  apply nth_reply_tick.
Qed.

Lemma advanced_tick_reading self job interval k w w' i :
  advanced self job interval k (tick w) w' ->
  nth_reading w' i = nth_reading w (S (k + i)).
Proof.
  intros Hadv.
  rewrite (advanced_nth_reading self job interval k (tick w) w' i Hadv).
  unfold nth_reading. cbn. f_equal. lia.
Qed.

Lemma advanced_tick_sent self job interval k w w' req :
  advanced self job interval k (tick w) w' ->
  sent (record_request req (tick w')) =
  (sent w ++ repeat (status_request self job) k ++ [req])%list.
Proof.
  intros [_ _ Hs _ _]. cbn. rewrite Hs. cbn. now rewrite <- app_assoc.
Qed.

Lemma repeat_snoc {A} (x : A) n : (repeat x n ++ [x])%list = repeat x (S n).
Proof.
  induction n as [|n IH]; [reflexivity|]. cbn. now rewrite IH.
Qed.

Lemma eq_str_refl s : eq_str (JStr s) s = true.
Proof. cbn. apply String.eqb_refl. Qed.

(** C1: when the first [k] polls find the job pending and the next one
    finds it completed, the call is the call of [get_results] made right
    after these [k + 1] status requests; what it returns or raises is what
    that fetch returns or raises, and the results request is the last
    request sent. *)
Theorem poll_until_complete_completed (self : ApartmentScraperClient)
    (job : json) (interval timeout : Z) (k fuel : nat) (w : World)
    (st : JobStatus) :
  (k = 0%nat \/ (0 <= interval)%Z) ->
  (forall i, (i <= k)%nat ->
     within (nth_reading w (S i)) (nth_reading w 0) timeout = true) ->
  (forall i, (i < k)%nat -> pending_reply (nth_reply w i) = true) ->
  polled (nth_reply w k) = Some st ->
  status st = JStr "completed" ->
  (k < fuel)%nat ->
  exists w1,
    poll_until_complete fuel self job interval timeout w =
    get_results self job w1
    /\ sent w1 = (sent w ++ repeat (status_request self job) (S k))%list
    /\ fst (get_results self job w1) = decoded (nth_reply w (S k))
    /\ sent (snd (poll_until_complete fuel self job interval timeout w)) =
       (sent w ++ repeat (status_request self job) (S k)
               ++ [results_request self job])%list.
Proof.
  intros Hint Hin Hpend Hst Hdone Hfuel.
  destruct (poll_until_complete_reach self job interval timeout k (fuel - k) w)
    as (w' & Hrun & Hadv);
    [exact Hint | intros i Hi; apply Hin; lia | exact Hpend |].
  replace (k + (fuel - k))%nat with fuel in Hrun by lia.
  destruct (fuel - k)%nat as [|m] eqn:Hm; [lia|].
  rewrite (poll_loop_status self job interval timeout _ m w' st) in Hrun.
  - cbv zeta in Hrun. rewrite Hdone, eq_str_refl in Hrun.
    exists (record_request (status_request self job) (tick w')).
    assert (Hsent : sent (record_request (status_request self job) (tick w')) =
                    (sent w ++ repeat (status_request self job) (S k))%list).
    { rewrite (advanced_tick_sent self job interval k w w' _ Hadv).
      now rewrite repeat_snoc. }
    split; [exact Hrun|]. split; [exact Hsent|]. split.
    + rewrite get_results_run. cbn [fst]. f_equal.
      change (nth_reply (record_request (status_request self job) (tick w')) 0)
        with (http_script w'
                (List.length (sent w' ++ [status_request self job]) + 0)%nat).
      destruct Hadv as [Hh _ Hs _ _]. unfold nth_reply.
      rewrite Hh, Hs. cbn [tick time_time snd sent http_script].
      rewrite !length_app, repeat_length. cbn [List.length]. f_equal. lia.
    + rewrite Hrun, get_results_run. cbn [snd].
      rewrite sent_record_request, Hsent, <- app_assoc. reflexivity.
  - rewrite (advanced_tick_reading self job interval k w w' 0 Hadv).
    rewrite Nat.add_0_r. apply Hin. lia.
  - rewrite (advanced_tick_reply self job interval k w w' 0 Hadv).
    rewrite Nat.add_0_r. exact Hst.
Qed.

Lemma poll_until_complete_completed_witness :
  exists w1,
    poll_until_complete 3 demo_client (JStr "job-1") 5 300 world_completed =
    get_results demo_client (JStr "job-1") w1
    /\ sent w1 =
       (sent world_completed
          ++ repeat (status_request demo_client (JStr "job-1")) 3)%list
    /\ fst (get_results demo_client (JStr "job-1") w1) =
       decoded (nth_reply world_completed 3)
    /\ sent (snd (poll_until_complete 3 demo_client (JStr "job-1") 5 300
                    world_completed)) =
       (sent world_completed
          ++ repeat (status_request demo_client (JStr "job-1")) 3
          ++ [results_request demo_client (JStr "job-1")])%list.
Proof.
  eapply (poll_until_complete_completed demo_client (JStr "job-1") 5 300 2 3
            world_completed).
  - right. lia.
  - intros i Hi. destruct i as [|[|[|i]]]; [reflexivity..|lia].
  - intros i Hi. destruct i as [|[|i]]; [reflexivity..|lia].
  - reflexivity.
  - reflexivity.
  - lia.
Defined.

Example poll_until_complete_completed_run :
  fst (poll_until_complete 3 demo_client (JStr "job-1") 5 300 world_completed)
  = Return results_payload.
Proof. vm_compute. reflexivity. Qed.

(** The state of a call whose first [k] polls found the job pending, at
    the loop head. *)
Lemma poll_until_complete_at_head self job interval timeout k fuel w :
  (k = 0%nat \/ (0 <= interval)%Z) ->
  (forall i, (i < k)%nat ->
     within (nth_reading w (S i)) (nth_reading w 0) timeout = true) ->
  (forall i, (i < k)%nat -> pending_reply (nth_reply w i) = true) ->
  (k < fuel)%nat ->
  exists m w',
    poll_until_complete fuel self job interval timeout w =
    poll_loop (S m) self job interval timeout (nth_reading w 0) w'
    /\ nth_reading w' 0 = nth_reading w (S k)
    /\ nth_reply w' 0 = nth_reply w k
    /\ http_script w' = http_script w
    /\ sent w' = (sent w ++ repeat (status_request self job) k)%list
    /\ slept w' = (slept w ++ repeat interval k)%list.
Proof.
  intros Hint Hin Hpend Hfuel.
  destruct (poll_until_complete_reach self job interval timeout k (fuel - k) w)
    as (w' & Hrun & Hadv); [assumption..|].
  replace (k + (fuel - k))%nat with fuel in Hrun by lia.
  destruct (fuel - k)%nat as [|m] eqn:Hm; [lia|].
  exists m, w'. split; [exact Hrun|].
  split.
  { rewrite (advanced_tick_reading self job interval k w w' 0 Hadv).
    now rewrite Nat.add_0_r. }
  split.
  { rewrite (advanced_tick_reply self job interval k w w' 0 Hadv).
    now rewrite Nat.add_0_r. }
  destruct Hadv as [Hh _ Hs _ Hz]. repeat split; assumption.
Qed.

(** C2: when the first [k] polls find the job pending and the next one
    finds it failed with error text [X], the call raises the runtime error
    whose message is "Job failed: " followed by [X]; only status requests
    were sent, so no results were fetched. *)
Theorem poll_until_complete_failed (self : ApartmentScraperClient)
    (job : json) (interval timeout : Z) (k fuel : nat) (w : World)
    (st : JobStatus) (X : string) :
  (k = 0%nat \/ (0 <= interval)%Z) ->
  (forall i, (i <= k)%nat ->
     within (nth_reading w (S i)) (nth_reading w 0) timeout = true) ->
  (forall i, (i < k)%nat -> pending_reply (nth_reply w i) = true) ->
  polled (nth_reply w k) = Some st ->
  status st = JStr "failed" ->
  error st = JStr X ->
  (k < fuel)%nat ->
  exists w',
    poll_until_complete fuel self job interval timeout w =
    (Raise (RuntimeError ("Job failed: " ++ X)), w')
    /\ sent w' = (sent w ++ repeat (status_request self job) (S k))%list.
Proof.
  intros Hint Hin Hpend Hst Hfailed Herr Hfuel.
  destruct (poll_until_complete_at_head self job interval timeout k fuel w)
    as (m & w1 & Hrun & Hclock & Hreply & _ & Hsent & _);
    [exact Hint | intros i Hi; apply Hin; lia | exact Hpend | exact Hfuel |].
  rewrite Hrun, (poll_loop_status self job interval timeout _ m w1 st).
  - cbv zeta. rewrite Hfailed, Herr. cbn [eq_str py_str].
    eexists. split; [reflexivity|].
    rewrite sent_record_request. cbn [tick time_time snd sent].
    rewrite Hsent, <- app_assoc, repeat_snoc. reflexivity.
  - rewrite Hclock. apply Hin. lia.
  - rewrite Hreply. exact Hst.
Qed.

Lemma poll_until_complete_failed_witness :
  exists w',
    poll_until_complete 2 demo_client (JStr "job-1") 5 300 world_failed =
    (Raise (RuntimeError ("Job failed: " ++ "X")), w')
    /\ sent w' =
       (sent world_failed
          ++ repeat (status_request demo_client (JStr "job-1")) 2)%list.
Proof.
  eapply (poll_until_complete_failed demo_client (JStr "job-1") 5 300 1 2
            world_failed).
  - right. lia.
  - intros i Hi. destruct i as [|[|i]]; [reflexivity..|lia].
  - intros i Hi. destruct i as [|i]; [reflexivity|lia].
  - reflexivity.
  - reflexivity.
  - reflexivity.
  - lia.
Defined.

Lemma cancelled_is_not_failed (e : json) :
  RuntimeError "Job was cancelled" <> RuntimeError ("Job failed: " ++ py_str e).
Proof. cbn. intros H. discriminate H. Qed.

(** C3: when the first [k] polls find the job pending and the next one
    finds it cancelled, the call raises the runtime error with the message
    "Job was cancelled", after status requests only; no error raised for
    a failed job, whatever its error field, is equal to it. *)
Theorem poll_until_complete_cancelled (self : ApartmentScraperClient)
    (job : json) (interval timeout : Z) (k fuel : nat) (w : World)
    (st : JobStatus) :
  (k = 0%nat \/ (0 <= interval)%Z) ->
  (forall i, (i <= k)%nat ->
     within (nth_reading w (S i)) (nth_reading w 0) timeout = true) ->
  (forall i, (i < k)%nat -> pending_reply (nth_reply w i) = true) ->
  polled (nth_reply w k) = Some st ->
  status st = JStr "cancelled" ->
  (k < fuel)%nat ->
  exists w',
    poll_until_complete fuel self job interval timeout w =
    (Raise (RuntimeError "Job was cancelled"), w')
    /\ sent w' = (sent w ++ repeat (status_request self job) (S k))%list
    /\ forall e : json,
         RuntimeError "Job was cancelled"
         <> RuntimeError ("Job failed: " ++ py_str e).
Proof.
  intros Hint Hin Hpend Hst Hcancelled Hfuel.
  destruct (poll_until_complete_at_head self job interval timeout k fuel w)
    as (m & w1 & Hrun & Hclock & Hreply & _ & Hsent & _);
    [exact Hint | intros i Hi; apply Hin; lia | exact Hpend | exact Hfuel |].
  rewrite Hrun, (poll_loop_status self job interval timeout _ m w1 st).
  - cbv zeta. rewrite Hcancelled. cbn [eq_str String.eqb Ascii.eqb Bool.eqb].
    eexists. split; [reflexivity|]. split; [|exact cancelled_is_not_failed].
    rewrite sent_record_request. cbn [tick time_time snd sent].
    rewrite Hsent, <- app_assoc, repeat_snoc. reflexivity.
  - rewrite Hclock. apply Hin. lia.
  - rewrite Hreply. exact Hst.
Qed.

Lemma poll_until_complete_cancelled_witness :
  exists w',
    poll_until_complete 2 demo_client (JStr "job-1") 5 300 world_cancelled =
    (Raise (RuntimeError "Job was cancelled"), w')
    /\ sent w' =
       (sent world_cancelled
          ++ repeat (status_request demo_client (JStr "job-1")) 2)%list
    /\ forall e : json,
         RuntimeError "Job was cancelled"
         <> RuntimeError ("Job failed: " ++ py_str e).
Proof.
  eapply (poll_until_complete_cancelled demo_client (JStr "job-1") 5 300 1 2
            world_cancelled).
  - right. lia.
  - intros i Hi. destruct i as [|[|i]]; [reflexivity..|lia].
  - intros i Hi. destruct i as [|i]; [reflexivity|lia].
  - reflexivity.
  - reflexivity.
  - lia.
Defined.

(** C4: when the first [k] polls find the job pending and the loop test
    then finds that [timeout] seconds have elapsed, the call raises the
    timeout error, after these [k] status requests only; that error is
    not a runtime error, so it differs from those raised for failed and
    cancelled jobs. *)
Theorem poll_until_complete_timeout (self : ApartmentScraperClient)
    (job : json) (interval timeout : Z) (k fuel : nat) (w : World) :
  (k = 0%nat \/ (0 <= interval)%Z) ->
  (forall i, (i < k)%nat ->
     within (nth_reading w (S i)) (nth_reading w 0) timeout = true) ->
  (forall i, (i < k)%nat -> pending_reply (nth_reply w i) = true) ->
  within (nth_reading w (S k)) (nth_reading w 0) timeout = false ->
  (k < fuel)%nat ->
  exists w',
    poll_until_complete fuel self job interval timeout w =
    (Raise (TimeoutError ("Job did not complete within "
                          ++ string_of_Z timeout ++ " seconds")), w')
    /\ sent w' = (sent w ++ repeat (status_request self job) k)%list
    /\ forall msg : string,
         TimeoutError ("Job did not complete within "
                       ++ string_of_Z timeout ++ " seconds")
         <> RuntimeError msg.
Proof.
  intros Hint Hin Hpend Hout Hfuel.
  destruct (poll_until_complete_at_head self job interval timeout k fuel w)
    as (m & w1 & Hrun & Hclock & Hreply & _ & Hsent & _);
    [exact Hint | exact Hin | exact Hpend | exact Hfuel |].
  rewrite Hrun, (poll_loop_timeout self job interval timeout _ m w1).
  - eexists. split; [reflexivity|]. split; [exact Hsent|].
    intros msg H. discriminate H.
  - rewrite Hclock. exact Hout.
Qed.

Lemma poll_until_complete_timeout_witness :
  exists w',
    poll_until_complete 3 demo_client (JStr "job-1") 0 30 world_stuck =
    (Raise (TimeoutError ("Job did not complete within "
                          ++ string_of_Z 30 ++ " seconds")), w')
    /\ sent w' =
       (sent world_stuck
          ++ repeat (status_request demo_client (JStr "job-1")) 2)%list
    /\ forall msg : string,
         TimeoutError ("Job did not complete within "
                       ++ string_of_Z 30 ++ " seconds")
         <> RuntimeError msg.
Proof.
  eapply (poll_until_complete_timeout demo_client (JStr "job-1") 0 30 2 3
            world_stuck).
  - right. lia.
  - intros i Hi. destruct i as [|[|i]]; [reflexivity..|lia].
  - intros i Hi. destruct i as [|[|i]]; [reflexivity..|lia].
  - reflexivity.
  - lia.
Defined.

Example poll_until_complete_timeout_run :
  fst (poll_until_complete 3 demo_client (JStr "job-1") 0 30 world_stuck)
  = Raise (TimeoutError "Job did not complete within 30 seconds").
Proof. vm_compute. reflexivity. Qed.

(* ===================================================================== *)
(** ** Transport failures *)
(* ===================================================================== *)

Lemma decoded_failure r e : transport_failure r = Some e -> decoded r = Raise e.
Proof. unfold decoded. now intros ->. Qed.

Lemma transport_failure_is_requests_error r e :
  transport_failure r = Some e -> is_requests_error e = true.
Proof.
  destruct r as [reason|resp]; cbn.
  - now intros [= <-].
  - destruct ((400 <=? status_code resp) && (status_code resp <? 600))%Z;
      [now intros [= <-]|discriminate].
Qed.

(** C7: a request that fails in transport or with an HTTP error status
    ends the operation that sent it, which raises the library's error and
    has sent that one request and nothing after it.  For the single-request
    operations, [w] is a world whose next reply is the failure [e]; for
    the poll loop, [wp] is a world in which [k] polls find the job pending
    and the next poll gets the failure [ep]. *)
Theorem transport_failure_aborts (self : ApartmentScraperClient)
    (request : ScrapeRequest) (job : json) (interval timeout : Z)
    (k fuel : nat) (w wp : World) (e ep : Exception) :
  transport_failure (nth_reply w 0) = Some e ->
  (k = 0%nat \/ (0 <= interval)%Z) ->
  (forall i, (i <= k)%nat ->
     within (nth_reading wp (S i)) (nth_reading wp 0) timeout = true) ->
  (forall i, (i < k)%nat -> pending_reply (nth_reply wp i) = true) ->
  transport_failure (nth_reply wp k) = Some ep ->
  (k < fuel)%nat ->
  is_requests_error e = true
  /\ is_requests_error ep = true
  /\ start_scrape self request w =
     (Raise e, record_request (start_request self request) w)
  /\ get_status self job w =
     (Raise e, record_request (status_request self job) w)
  /\ get_results self job w =
     (Raise e, record_request (results_request self job) w)
  /\ cancel_job self job w =
     (Raise e, record_request (cancel_request self job) w)
  /\ exists wp',
       poll_until_complete fuel self job interval timeout wp = (Raise ep, wp')
       /\ sent wp' = (sent wp ++ repeat (status_request self job) (S k))%list
       /\ slept wp' = (slept wp ++ repeat interval k)%list.
Proof.
  intros Hfail Hint Hin Hpend Hfailp Hfuel.
  split; [exact (transport_failure_is_requests_error _ _ Hfail)|].
  split; [exact (transport_failure_is_requests_error _ _ Hfailp)|].
  split; [rewrite start_scrape_run, (decoded_failure _ _ Hfail); reflexivity|].
  split; [exact (get_status_failure self job w e Hfail)|].
  split; [rewrite get_results_run, (decoded_failure _ _ Hfail); reflexivity|].
  split; [rewrite cancel_job_run, (decoded_failure _ _ Hfail); reflexivity|].
  destruct (poll_until_complete_at_head self job interval timeout k fuel wp)
    as (m & w1 & Hrun & Hclock & Hreply & _ & Hsent & Hslept);
    [exact Hint | intros i Hi; apply Hin; lia | exact Hpend | exact Hfuel |].
  rewrite Hrun, (poll_loop_failure self job interval timeout _ m w1 ep).
  - eexists. split; [reflexivity|]. split.
    + rewrite sent_record_request. cbn [tick time_time snd sent].
      rewrite Hsent, <- app_assoc, repeat_snoc. reflexivity.
    + exact Hslept.
  - rewrite Hclock. apply Hin. lia.
  - rewrite Hreply. exact Hfailp.
Qed.

Lemma transport_failure_aborts_witness :
  is_requests_error (ConnectionError "connection reset") = true
  /\ is_requests_error (HTTPError 503) = true
  /\ start_scrape demo_client atlanta world_refused =
     (Raise (ConnectionError "connection reset"),
      record_request (start_request demo_client atlanta) world_refused)
  /\ get_status demo_client (JStr "job-1") world_refused =
     (Raise (ConnectionError "connection reset"),
      record_request (status_request demo_client (JStr "job-1")) world_refused)
  /\ get_results demo_client (JStr "job-1") world_refused =
     (Raise (ConnectionError "connection reset"),
      record_request (results_request demo_client (JStr "job-1")) world_refused)
  /\ cancel_job demo_client (JStr "job-1") world_refused =
     (Raise (ConnectionError "connection reset"),
      record_request (cancel_request demo_client (JStr "job-1")) world_refused)
  /\ exists wp',
       poll_until_complete 2 demo_client (JStr "job-1") 5 300 world_outage =
       (Raise (HTTPError 503), wp')
       /\ sent wp' =
          (sent world_outage
             ++ repeat (status_request demo_client (JStr "job-1")) 2)%list
       /\ slept wp' = (slept world_outage ++ repeat 5%Z 1)%list.
Proof.
  apply (transport_failure_aborts demo_client atlanta (JStr "job-1") 5 300 1 2
           world_refused world_outage).
  - reflexivity.
  - right. lia.
  - intros i Hi. destruct i as [|[|i]]; [reflexivity..|lia].
  - intros i Hi. destruct i as [|i]; [reflexivity|lia].
  - reflexivity.
  - lia.
Defined.

(* ===================================================================== *)
(** ** [scrape_and_wait] *)
(* ===================================================================== *)

(** C6: the start response carries the job id [job]; the polls that follow
    find the job pending [k] times, then completed; the results payload is
    then fetched.  The call returns the value under the key results of
    that payload, and the requests sent are the start request, [k + 1]
    status requests for [job] and the results request for [job]. *)
Theorem scrape_and_wait_results (self : ApartmentScraperClient)
    (request : ScrapeRequest) (poll_interval : Z) (k fuel : nat) (w : World)
    (started payload : dict) (job listings : json) (st : JobStatus) :
  decoded (nth_reply w 0) = Return (JObj started) ->
  dict_lookup "jobId" started = Some job ->
  (k = 0%nat \/ (0 <= poll_interval)%Z) ->
  (forall i, (i <= k)%nat ->
     within (nth_reading w (S i)) (nth_reading w 0) default_timeout = true) ->
  (forall i, (i < k)%nat -> pending_reply (nth_reply w (S i)) = true) ->
  polled (nth_reply w (S k)) = Some st ->
  status st = JStr "completed" ->
  decoded (nth_reply w (S (S k))) = Return (JObj payload) ->
  dict_lookup "results" payload = Some listings ->
  (k < fuel)%nat ->
  exists w',
    scrape_and_wait fuel self request poll_interval w = (Return listings, w')
    /\ sent w' =
       (sent w ++ [start_request self request]
               ++ repeat (status_request self job) (S k)
               ++ [results_request self job])%list.
Proof.
  intros Hstart Hjob Hint Hin Hpend Hst Hdone Hres Hlist Hfuel.
  unfold scrape_and_wait, bind at 1.
  rewrite start_scrape_run, Hstart.
  unfold bind at 1, subscript at 1. rewrite Hjob. unfold ret at 1.
  unfold bind at 1, print at 1.
  set (w0 := {| http_script := _ |}).
  assert (Hreply : forall i, nth_reply w0 i = nth_reply w (S i)).
  { intros i. unfold nth_reply, w0. cbn.
    rewrite length_app. cbn. f_equal. lia. }
  assert (Hread : forall i, nth_reading w0 i = nth_reading w i) by reflexivity.
  destruct (poll_until_complete_at_head self job poll_interval default_timeout
              k fuel w0)
    as (m & w1 & Hrun & Hclock & Hreply1 & Hscript & Hsent & _).
  { exact Hint. }
  { intros i Hi. rewrite !Hread. apply Hin. lia. }
  { intros i Hi. rewrite Hreply. apply Hpend. exact Hi. }
  { exact Hfuel. }
  unfold bind at 1.
  rewrite Hrun, (poll_loop_status self job poll_interval default_timeout _ m w1 st).
  - cbv zeta. rewrite Hdone, eq_str_refl, get_results_run.
    set (w2 := record_request (status_request self job) (tick w1)).
    assert (Hlast : nth_reply w2 0 = nth_reply w (S (S k))).
    { unfold nth_reply, w2. cbn. rewrite Hscript, length_app, Hsent.
      unfold w0. cbn. rewrite !length_app, repeat_length. cbn.
      f_equal. lia. }
    rewrite Hlast, Hres. unfold subscript, ret. rewrite Hlist.
    eexists. split; [reflexivity|].
    rewrite sent_record_request. unfold w2. rewrite sent_record_request.
    cbn [tick time_time snd sent]. rewrite Hsent. unfold w0. cbn [sent].
    rewrite sent_record_request, <- repeat_snoc, <- !app_assoc. reflexivity.
  - rewrite Hclock, !Hread. apply Hin. lia.
  - rewrite Hreply1, Hreply. exact Hst.
Qed.

Lemma scrape_and_wait_results_witness :
  exists w',
    scrape_and_wait 2 demo_client atlanta 5 world_session =
    (Return (JArr [JObj [("propertyName", JStr "The Vue");
                         ("minPrice", JNum 1450)]]), w')
    /\ sent w' =
       (sent world_session ++ [start_request demo_client atlanta]
          ++ repeat (status_request demo_client (JStr "job-1")) 2
          ++ [results_request demo_client (JStr "job-1")])%list.
Proof.
  eapply (scrape_and_wait_results demo_client atlanta 5 1 2 world_session).
  - reflexivity.
  - reflexivity.
  - right. lia.
  - intros i Hi. destruct i as [|[|i]]; [reflexivity..|lia].
  - intros i Hi. destruct i as [|i]; [reflexivity|lia].
  - reflexivity.
  - reflexivity.
  - reflexivity.
  - reflexivity.
  - lia.
Defined.

(* ===================================================================== *)
(** ** Further properties: responses the client does not expect *)
(* ===================================================================== *)

Lemma decoded_body code v :
  ((400 <=? code) && (code <? 600))%Z = false ->
  decoded (Answered {| status_code := code; body := v |}) =
  match v with
  | Some x => Return x
  | None => Raise JSONDecodeError
  end.
Proof. unfold decoded, transport_failure. cbn. now intros ->. Qed.

(** X1: a successful response whose body is not JSON makes each of the four
    operations raise the decoding error of the HTTP library, after the one
    request it sent. *)
Theorem undecodable_body_raises (self : ApartmentScraperClient)
    (request : ScrapeRequest) (job : json) (w : World) (code : Z) :
  nth_reply w 0 = Answered {| status_code := code; body := None |} ->
  ((400 <=? code) && (code <? 600))%Z = false ->
  start_scrape self request w =
  (Raise JSONDecodeError, record_request (start_request self request) w)
  /\ get_status self job w =
     (Raise JSONDecodeError, record_request (status_request self job) w)
  /\ get_results self job w =
     (Raise JSONDecodeError, record_request (results_request self job) w)
  /\ cancel_job self job w =
     (Raise JSONDecodeError, record_request (cancel_request self job) w).
Proof.
  intros Hreply Hcode.
  rewrite start_scrape_run, get_results_run, cancel_job_run, Hreply,
    (decoded_body code None Hcode).
  repeat split.
  rewrite next_reply in Hreply. unfold get_status. run_request.
  rewrite Hreply. cbn. rewrite Hcode. reflexivity.
Qed.

Lemma undecodable_body_raises_witness :
  start_scrape demo_client atlanta world_html =
  (Raise JSONDecodeError, record_request (start_request demo_client atlanta) world_html)
  /\ get_status demo_client (JStr "job-1") world_html =
     (Raise JSONDecodeError,
      record_request (status_request demo_client (JStr "job-1")) world_html)
  /\ get_results demo_client (JStr "job-1") world_html =
     (Raise JSONDecodeError,
      record_request (results_request demo_client (JStr "job-1")) world_html)
  /\ cancel_job demo_client (JStr "job-1") world_html =
     (Raise JSONDecodeError,
      record_request (cancel_request demo_client (JStr "job-1")) world_html).
Proof.
  apply (undecodable_body_raises demo_client atlanta (JStr "job-1") world_html 200);
    reflexivity.
Defined.

(** X2: the decoded body is not validated.  When it is JSON but not an
    object, [start_scrape], [get_results] and [cancel_job] return it as it
    is, while [get_status], which subscripts it, raises a type error. *)
Theorem body_is_not_validated (self : ApartmentScraperClient)
    (request : ScrapeRequest) (job : json) (w : World) (code : Z) (v : json) :
  nth_reply w 0 = Answered {| status_code := code; body := Some v |} ->
  ((400 <=? code) && (code <? 600))%Z = false ->
  is_object v = false ->
  start_scrape self request w =
  (Return v, record_request (start_request self request) w)
  /\ get_results self job w =
     (Return v, record_request (results_request self job) w)
  /\ cancel_job self job w =
     (Return v, record_request (cancel_request self job) w)
  /\ get_status self job w =
     (Raise TypeError, record_request (status_request self job) w).
Proof.
  intros Hreply Hcode Hobj.
  rewrite start_scrape_run, get_results_run, cancel_job_run, Hreply,
    (decoded_body code (Some v) Hcode).
  repeat split.
  rewrite next_reply in Hreply. unfold get_status. run_request.
  rewrite Hreply. cbn. rewrite Hcode. cbn.
  destruct v; try reflexivity. discriminate Hobj.
Qed.

Lemma body_is_not_validated_witness :
  start_scrape demo_client atlanta world_array =
  (Return (JArr [JNum 1; JNum 2]),
   record_request (start_request demo_client atlanta) world_array)
  /\ get_results demo_client (JStr "job-1") world_array =
     (Return (JArr [JNum 1; JNum 2]),
      record_request (results_request demo_client (JStr "job-1")) world_array)
  /\ cancel_job demo_client (JStr "job-1") world_array =
     (Return (JArr [JNum 1; JNum 2]),
      record_request (cancel_request demo_client (JStr "job-1")) world_array)
  /\ get_status demo_client (JStr "job-1") world_array =
     (Raise TypeError,
      record_request (status_request demo_client (JStr "job-1")) world_array).
Proof.
  apply (body_is_not_validated demo_client atlanta (JStr "job-1") world_array 200);
    reflexivity.
Defined.

(** X3: when the status object lacks one of the five fields that
    [get_status] subscripts, the call raises the key error for the first
    missing one, in the order jobId, status, progress, createdAt,
    updatedAt. *)
Theorem get_status_missing_field (self : ApartmentScraperClient) (job : json)
    (w : World) (code : Z) (d : dict) (k : string) :
  nth_reply w 0 = Answered {| status_code := code; body := Some (JObj d) |} ->
  ((400 <=? code) && (code <? 600))%Z = false ->
  first_missing required_fields d = Some k ->
  get_status self job w =
  (Raise (KeyError k), record_request (status_request self job) w).
Proof.
  intros Hreply Hcode Hmiss.
  rewrite next_reply in Hreply. unfold get_status. run_request.
  rewrite Hreply. cbn. rewrite Hcode. cbn.
  unfold first_missing, required_fields, absent in Hmiss. cbn in Hmiss.
  unfold subscript, bind, raise, ret.
  destruct (dict_lookup "jobId" d); [|now injection Hmiss as <-].
  destruct (dict_lookup "status" d); [|now injection Hmiss as <-].
  destruct (dict_lookup "progress" d); [|now injection Hmiss as <-].
  destruct (dict_lookup "createdAt" d); [|now injection Hmiss as <-].
  destruct (dict_lookup "updatedAt" d); [discriminate|now injection Hmiss as <-].
Qed.

Lemma get_status_missing_field_witness :
  get_status demo_client (JStr "job-1") world_truncated_status =
  (Raise (KeyError "updatedAt"),
   record_request (status_request demo_client (JStr "job-1"))
     world_truncated_status).
Proof.
  eapply (get_status_missing_field demo_client (JStr "job-1")
            world_truncated_status 200); reflexivity.
Defined.

(* ===================================================================== *)
(** ** Further properties: the constructor *)
(* ===================================================================== *)

Lemma rstrip_clean c s : ends_with c s = false -> rstrip c s = s.
Proof.
  induction s as [|a s IH]; [reflexivity|].
  cbn [rstrip ends_with]. destruct s as [|b s].
  - cbn. now intros ->.
  - intros Hend. rewrite (IH Hend). reflexivity.
Qed.

(** X4: a base URL that does not end in a slash is stored unchanged. *)
Theorem init_keeps_clean_base_url (base : string) (key : option string) :
  ends_with "/" base = false ->
  base_url (init base key) = base.
Proof. intros Hend. cbn. apply rstrip_clean. exact Hend. Qed.

Lemma init_keeps_clean_base_url_witness :
  base_url (init "https://apartment-scraper.workers.dev/v1" None) =
  "https://apartment-scraper.workers.dev/v1".
Proof.
  apply (init_keeps_clean_base_url "https://apartment-scraper.workers.dev/v1" None).
  reflexivity.
Defined.

Lemma session_headers_init base key :
  session_headers (init base key) = bearer key.
Proof. destruct key as [[|a s]|]; reflexivity. Qed.

Lemma new_requests_app w w' l :
  sent w' = (sent w ++ l)%list -> new_requests w w' = l.
Proof.
  intros Hs. unfold new_requests.
  now rewrite Hs, skipn_app, skipn_all, Nat.sub_diag.
Qed.

(* ===================================================================== *)
(** ** Further properties: what a poll run does to the world *)
(* ===================================================================== *)

(** Whatever the world and the budget, a run of the loop sends some
    status requests and then at most one results request, whose decoded
    reply is the outcome; it sleeps [interval] at most once per status
    request; it returns a value only out of a results request. *)
Lemma poll_loop_trace self job interval timeout t0 fuel : forall w r w',
  poll_loop fuel self job interval timeout t0 w = (r, w') ->
  exists n m,
    (m <= n)%nat
    /\ slept w' = (slept w ++ repeat interval m)%list
    /\ ((sent w' = (sent w ++ repeat (status_request self job) n)%list
         /\ forall v, r <> Return v)
        \/ (sent w' = (sent w ++ repeat (status_request self job) n
                              ++ [results_request self job])%list
            /\ (m < n)%nat
            /\ r = decoded (nth_reply w n))).
Proof.
  induction fuel as [|fuel IH]; intros w r w' Hrun.
  - injection Hrun as <- <-. exists 0%nat, 0%nat. cbn. rewrite !app_nil_r.
    split; [lia|]. split; [reflexivity|]. left. split; [reflexivity|discriminate].
  - cbn [poll_loop] in Hrun. unfold bind at 1 in Hrun.
    unfold time_time at 1 in Hrun.
    set (w1 := {| http_script := _ |}) in Hrun.
    assert (Hstop : forall (o : Outcome json) (x : World),
      (o, x) = (r, w') ->
      (forall v, o <> Return v) ->
      sent x = (sent w ++ [status_request self job])%list ->
      slept x = slept w ->
      exists n m : nat,
        (m <= n)%nat /\
        slept w' = (slept w ++ repeat interval m)%list /\
        (sent w' = (sent w ++ repeat (status_request self job) n)%list /\
         (forall v, r <> Return v) \/
         sent w' =
         (sent w ++ repeat (status_request self job) n
                 ++ [results_request self job])%list /\
         (m < n)%nat /\ r = decoded (nth_reply w n))).
    { intros o x [= <- <-] Hnr Hs Hz. exists 1%nat, 0%nat; cbn; rewrite !app_nil_r.
      split; [lia|]. split; [exact Hz|]. left. split; [exact Hs|exact Hnr]. }
    destruct (within _ t0 timeout).
    2:{ injection Hrun as <- <-. exists 0%nat, 0%nat. cbn. rewrite !app_nil_r.
        split; [lia|]. split; [reflexivity|]. left.
        split; [reflexivity|discriminate]. }
    unfold bind at 1 in Hrun.
    pose proof (get_status_world self job w1) as Hw2.
    destruct (get_status self job w1) as [[st| |] w2]; cbn [snd] in Hw2; subst w2;
      [| apply (Hstop _ _ Hrun); [discriminate|reflexivity..]
       | apply (Hstop _ _ Hrun); [discriminate|reflexivity..] ].
    destruct (eq_str (status st) "completed").
    { rewrite get_results_run in Hrun. injection Hrun as <- <-.
      exists 1%nat, 0%nat. cbn [repeat]. rewrite !app_nil_r.
      split; [lia|]. split; [reflexivity|]. right.
      split; [|split; [lia|]].
      - cbn. rewrite <- app_assoc. reflexivity.
      - f_equal. unfold nth_reply. cbn. rewrite length_app. cbn.
        f_equal. lia. }
    destruct (eq_str (status st) "failed");
      [apply (Hstop _ _ Hrun); [discriminate|reflexivity..]|].
    destruct (eq_str (status st) "cancelled");
      [apply (Hstop _ _ Hrun); [discriminate|reflexivity..]|].
    unfold subscript in Hrun.
    destruct (progress st) as [| | | | |d];
      try (apply (Hstop _ _ Hrun); [discriminate|reflexivity..]).
    destruct (dict_lookup "currentPage" d);
      [|apply (Hstop _ _ Hrun); [discriminate|reflexivity..]].
    destruct (dict_lookup "totalPages" d);
      [|apply (Hstop _ _ Hrun); [discriminate|reflexivity..]].
    destruct (dict_lookup "listingsScraped" d);
      [|apply (Hstop _ _ Hrun); [discriminate|reflexivity..]].
    unfold bind, ret, print, time_sleep in Hrun.
    destruct (interval <? 0)%Z;
      [apply (Hstop _ _ Hrun); [discriminate|reflexivity..]|].
    apply IH in Hrun. destruct Hrun as (n & m & Hle & Hslept & Hsent).
    exists (S n), (S m). split; [lia|]. split.
    { rewrite Hslept. cbn. rewrite <- app_assoc. reflexivity. }
    destruct Hsent as [[Hsent Hnr]|(Hsent & Hlt & Hr)].
    + left. split; [|exact Hnr]. rewrite Hsent. cbn.
      rewrite <- app_assoc. reflexivity.
    + right. split; [|split; [lia|]].
      * rewrite Hsent. cbn. rewrite <- app_assoc. reflexivity.
      * rewrite Hr. f_equal. unfold nth_reply. cbn. rewrite length_app. cbn.
        f_equal. lia.
Qed.

Lemma poll_until_complete_trace self job interval timeout fuel w r w' :
  poll_until_complete fuel self job interval timeout w = (r, w') ->
  exists n m,
    (m <= n)%nat
    /\ slept w' = (slept w ++ repeat interval m)%list
    /\ ((sent w' = (sent w ++ repeat (status_request self job) n)%list
         /\ forall v, r <> Return v)
        \/ (sent w' = (sent w ++ repeat (status_request self job) n
                              ++ [results_request self job])%list
            /\ (m < n)%nat
            /\ r = decoded (nth_reply w n))).
Proof.
  unfold poll_until_complete, bind at 1, time_time at 1. intros Hrun.
  apply poll_loop_trace in Hrun. exact Hrun.
Qed.

(** X5: whatever the server answers and however long it runs, a call of
    [poll_until_complete] sends nothing but status requests for its job,
    followed by at most one results request for it, which is then the last
    request; in particular it never cancels the job, not even when it
    times out. *)
Theorem poll_until_complete_only_polls (self : ApartmentScraperClient)
    (job : json) (interval timeout : Z) (fuel : nat) (w : World) :
  exists n,
    new_requests w (snd (poll_until_complete fuel self job interval timeout w))
    = repeat (status_request self job) n
    \/ new_requests w (snd (poll_until_complete fuel self job interval timeout w))
       = (repeat (status_request self job) n ++ [results_request self job])%list.
Proof.
  destruct (poll_until_complete fuel self job interval timeout w) as [r w'] eqn:Hrun.
  apply poll_until_complete_trace in Hrun.
  destruct Hrun as (n & m & _ & _ & [[Hsent _]|(Hsent & _ & _)]); exists n.
  - left. now apply new_requests_app.
  - right. now apply new_requests_app.
Qed.

(** X6: [poll_until_complete] returns a value only after at least one
    status request followed by the results request, and the value is the
    decoded body of the reply to that last request. *)
Theorem poll_until_complete_returns_fetched (self : ApartmentScraperClient)
    (job : json) (interval timeout : Z) (fuel : nat) (w w' : World) (v : json) :
  poll_until_complete fuel self job interval timeout w = (Return v, w') ->
  exists n,
    new_requests w w' =
    (repeat (status_request self job) (S n) ++ [results_request self job])%list
    /\ decoded (nth_reply w (S n)) = Return v.
Proof.
  intros Hrun. apply poll_until_complete_trace in Hrun.
  destruct Hrun as (n & m & _ & _ & [[_ Hnr]|(Hsent & Hlt & Hr)]).
  - now destruct (Hnr v).
  - destruct n as [|n]; [lia|]. exists n. split.
    + now apply new_requests_app.
    + now rewrite <- Hr.
Qed.

Lemma poll_until_complete_returns_fetched_witness :
  exists n,
    new_requests world_completed
      (snd (poll_until_complete 3 demo_client (JStr "job-1") 5 300
              world_completed)) =
    (repeat (status_request demo_client (JStr "job-1")) (S n)
       ++ [results_request demo_client (JStr "job-1")])%list
    /\ decoded (nth_reply world_completed (S n)) = Return results_payload.
Proof.
  apply (poll_until_complete_returns_fetched demo_client (JStr "job-1") 5 300 3
           world_completed).
  vm_compute. reflexivity.
Defined.


(** X8: every request of the client carries the headers of its session:
    the Authorization header with the bearer token when the client was
    built with a non-empty API key, and none otherwise.  This holds for
    the four single-request operations and for every request of a poll
    run. *)
Theorem requests_carry_bearer_token (base : string) (key : option string)
    (request : ScrapeRequest) (job : json) (interval timeout : Z)
    (fuel : nat) (w : World) :
  let self := init base key in
  map headers (new_requests w (snd (start_scrape self request w))) = [bearer key]
  /\ map headers (new_requests w (snd (get_status self job w))) = [bearer key]
  /\ map headers (new_requests w (snd (get_results self job w))) = [bearer key]
  /\ map headers (new_requests w (snd (cancel_job self job w))) = [bearer key]
  /\ Forall (fun req => headers req = bearer key)
       (new_requests w
          (snd (poll_until_complete fuel self job interval timeout w))).
Proof.
  cbv zeta. set (self := init base key).
  assert (Hh : session_headers self = bearer key) by apply session_headers_init.
  clearbody self.
  split; [|split; [|split; [|split]]].
  - rewrite start_scrape_run. cbn [snd].
    rewrite (new_requests_app _ _ [start_request self request]) by reflexivity.
    cbn. now rewrite Hh.
  - rewrite get_status_world.
    rewrite (new_requests_app _ _ [status_request self job]) by reflexivity.
    cbn. now rewrite Hh.
  - rewrite get_results_run. cbn [snd].
    rewrite (new_requests_app _ _ [results_request self job]) by reflexivity.
    cbn. now rewrite Hh.
  - rewrite cancel_job_run. cbn [snd].
    rewrite (new_requests_app _ _ [cancel_request self job]) by reflexivity.
    cbn. now rewrite Hh.
  - destruct (poll_until_complete fuel self job interval timeout w)
      as [r w'] eqn:Hrun.
    apply poll_until_complete_trace in Hrun. cbn [snd].
    destruct Hrun as (n & m & _ & _ & [[Hsent _]|(Hsent & _ & _)]);
      rewrite (new_requests_app _ _ _ Hsent).
    + apply Forall_forall. intros req Hin. apply repeat_spec in Hin.
      subst req. exact Hh.
    + apply Forall_app. split.
      * apply Forall_forall. intros req Hin. apply repeat_spec in Hin.
        subst req. exact Hh.
      * constructor; [exact Hh|constructor].
Qed.

(* ===================================================================== *)
(** ** Further properties: the edges of the poll loop *)
(* ===================================================================== *)

(** X9: when the job has failed and its status carries no error text (the
    field is absent or null), the message of the runtime error reads
    "Job failed: None". *)
Theorem poll_until_complete_failed_without_text (self : ApartmentScraperClient)
    (job : json) (interval timeout : Z) (k fuel : nat) (w : World)
    (st : JobStatus) :
  (k = 0%nat \/ (0 <= interval)%Z) ->
  (forall i, (i <= k)%nat ->
     within (nth_reading w (S i)) (nth_reading w 0) timeout = true) ->
  (forall i, (i < k)%nat -> pending_reply (nth_reply w i) = true) ->
  polled (nth_reply w k) = Some st ->
  status st = JStr "failed" ->
  error st = JNull ->
  (k < fuel)%nat ->
  fst (poll_until_complete fuel self job interval timeout w) =
  Raise (RuntimeError "Job failed: None").
Proof.
  intros Hint Hin Hpend Hst Hfailed Herr Hfuel.
  destruct (poll_until_complete_at_head self job interval timeout k fuel w)
    as (m & w1 & Hrun & Hclock & Hreply & _ & _ & _);
    [exact Hint | intros i Hi; apply Hin; lia | exact Hpend | exact Hfuel |].
  rewrite Hrun, (poll_loop_status self job interval timeout _ m w1 st).
  - cbv zeta. rewrite Hfailed, Herr. reflexivity.
  - rewrite Hclock. apply Hin. lia.
  - rewrite Hreply. exact Hst.
Qed.

Lemma poll_until_complete_failed_without_text_witness :
  fst (poll_until_complete 2 demo_client (JStr "job-1") 5 300
         world_failed_silently) =
  Raise (RuntimeError "Job failed: None").
Proof.
  eapply (poll_until_complete_failed_without_text demo_client (JStr "job-1")
            5 300 1 2 world_failed_silently).
  - right. lia.
  - intros i Hi. destruct i as [|[|i]]; [reflexivity..|lia].
  - intros i Hi. destruct i as [|i]; [reflexivity|lia].
  - reflexivity.
  - reflexivity.
  - reflexivity.
  - lia.
Defined.

Lemma within_nonpositive now start_time timeout :
  (timeout <= 0)%Z -> (start_time <= now)%Q ->
  within now start_time timeout = false.
Proof.
  intros Ht Hclock. unfold within. apply negb_false_iff, Qle_bool_iff.
  apply Qle_trans with (y := 0%Q).
  - change 0%Q with (inject_Z 0). rewrite <- Zle_Qle. exact Ht.
  - unfold Qminus. apply -> Qle_minus_iff. exact Hclock.
Qed.

(** X10: with a timeout of zero or less, and a clock that does not run
    backwards between the first two readings, [poll_until_complete] raises
    the timeout error at once: no request is sent and nothing is slept. *)
Theorem poll_until_complete_no_time (self : ApartmentScraperClient)
    (job : json) (interval timeout : Z) (fuel : nat) (w : World) :
  (timeout <= 0)%Z ->
  (nth_reading w 0 <= nth_reading w 1)%Q ->
  (0 < fuel)%nat ->
  exists w',
    poll_until_complete fuel self job interval timeout w =
    (Raise (TimeoutError ("Job did not complete within "
                          ++ string_of_Z timeout ++ " seconds")), w')
    /\ sent w' = sent w
    /\ slept w' = slept w.
Proof.
  intros Ht Hclock Hfuel.
  destruct (poll_until_complete_at_head self job interval timeout 0 fuel w)
    as (m & w1 & Hrun & Hread & _ & _ & Hsent & Hslept);
    [left; reflexivity | intros i Hi; lia | intros i Hi; lia | exact Hfuel |].
  rewrite Hrun, (poll_loop_timeout self job interval timeout _ m w1).
  - eexists. split; [reflexivity|]. cbn [tick time_time snd sent slept].
    cbn in Hsent, Hslept. rewrite app_nil_r in Hsent, Hslept. now split.
  - rewrite Hread. apply within_nonpositive; assumption.
Qed.

Lemma poll_until_complete_no_time_witness :
  exists w',
    poll_until_complete 1 demo_client (JStr "job-1") 5 0 world_completed =
    (Raise (TimeoutError ("Job did not complete within "
                          ++ string_of_Z 0 ++ " seconds")), w')
    /\ sent w' = sent world_completed
    /\ slept w' = slept world_completed.
Proof.
  apply (poll_until_complete_no_time demo_client (JStr "job-1") 5 0 1
           world_completed).
  - lia.
  - vm_compute. discriminate.
  - lia.
Defined.

(** X11: a status that is not terminal but whose progress object lacks
    one of the three counters makes the loop raise the key error for the
    first missing one (currentPage, totalPages, listingsScraped, in that
    order) when it prints the progress line: nothing is printed, and the
    loop does not sleep or poll again. *)
Theorem poll_until_complete_missing_counter (self : ApartmentScraperClient)
    (job : json) (interval timeout : Z) (k fuel : nat) (w : World)
    (st : JobStatus) (d : dict) (key : string) :
  (k = 0%nat \/ (0 <= interval)%Z) ->
  (forall i, (i <= k)%nat ->
     within (nth_reading w (S i)) (nth_reading w 0) timeout = true) ->
  (forall i, (i < k)%nat -> pending_reply (nth_reply w i) = true) ->
  polled (nth_reply w k) = Some st ->
  terminal st = false ->
  progress st = JObj d ->
  first_missing printed_counters d = Some key ->
  (k < fuel)%nat ->
  exists w',
    poll_until_complete fuel self job interval timeout w =
    (Raise (KeyError key), w')
    /\ sent w' = (sent w ++ repeat (status_request self job) (S k))%list
    /\ slept w' = (slept w ++ repeat interval k)%list.
Proof.
  intros Hint Hin Hpend Hst Hterm Hprog Hmiss Hfuel.
  destruct (poll_until_complete_at_head self job interval timeout k fuel w)
    as (m & w1 & Hrun & Hclock & Hreply & _ & Hsent & Hslept);
    [exact Hint | intros i Hi; apply Hin; lia | exact Hpend | exact Hfuel |].
  rewrite Hrun, (poll_loop_status self job interval timeout _ m w1 st).
  - cbv zeta. unfold terminal in Hterm.
    apply orb_false_iff in Hterm as [Hterm Hcan].
    apply orb_false_iff in Hterm as [Hcomp Hfail].
    rewrite Hcomp, Hfail, Hcan, Hprog.
    unfold first_missing, printed_counters, absent in Hmiss. cbn in Hmiss.
    unfold subscript, bind, raise, ret.
    assert (Hs : sent (record_request (status_request self job) (tick w1)) =
                 (sent w ++ repeat (status_request self job) (S k))%list).
    { rewrite sent_record_request. cbn [tick time_time snd sent].
      rewrite Hsent, <- app_assoc, repeat_snoc. reflexivity. }
    destruct (dict_lookup "currentPage" d);
      [|injection Hmiss as <-; eexists; split; [reflexivity|split; assumption]].
    destruct (dict_lookup "totalPages" d);
      [|injection Hmiss as <-; eexists; split; [reflexivity|split; assumption]].
    destruct (dict_lookup "listingsScraped" d);
      [discriminate
      |injection Hmiss as <-; eexists; split; [reflexivity|split; assumption]].
  - rewrite Hclock. apply Hin. lia.
  - rewrite Hreply. exact Hst.
Qed.

Lemma poll_until_complete_missing_counter_witness :
  exists w',
    poll_until_complete 1 demo_client (JStr "job-1") 5 300 world_no_counter =
    (Raise (KeyError "listingsScraped"), w')
    /\ sent w' =
       (sent world_no_counter
          ++ repeat (status_request demo_client (JStr "job-1")) 1)%list
    /\ slept w' = (slept world_no_counter ++ repeat 5%Z 0)%list.
Proof.
  eapply (poll_until_complete_missing_counter demo_client (JStr "job-1") 5 300
            0 1 world_no_counter).
  - left. reflexivity.
  - intros i Hi. destruct i as [|i]; [reflexivity|lia].
  - intros i Hi. lia.
  - reflexivity.
  - reflexivity.
  - reflexivity.
  - reflexivity.
  - lia.
Defined.

(** X12: with a negative interval, a first poll that finds the job
    pending ends in the value error of [time.sleep]: one status request
    was sent, the progress line was printed, and nothing was slept. *)
Theorem poll_until_complete_negative_interval (self : ApartmentScraperClient)
    (job : json) (interval timeout : Z) (fuel : nat) (w : World) :
  (interval < 0)%Z ->
  within (nth_reading w 1) (nth_reading w 0) timeout = true ->
  pending_reply (nth_reply w 0) = true ->
  (0 < fuel)%nat ->
  exists w' line,
    poll_until_complete fuel self job interval timeout w = (Raise ValueError, w')
    /\ sent w' = (sent w ++ [status_request self job])%list
    /\ stdout w' = (stdout w ++ [line])%list
    /\ slept w' = slept w.
Proof.
  intros Hint Hin Hpend Hfuel.
  destruct fuel as [|m]; [lia|].
  unfold poll_until_complete, bind at 1.
  change (time_time w) with (Return (clock_script w (clock_reads w)), tick w).
  cbv iota beta.
  replace (clock_script w (clock_reads w)) with (nth_reading w 0)
    by (unfold nth_reading; now rewrite Nat.add_0_r).
  unfold pending_reply in Hpend.
  destruct (polled (nth_reply w 0)) as [st|] eqn:Hst; [|discriminate].
  apply andb_true_iff in Hpend as [Hterm Hcnt].
  apply negb_true_iff in Hterm. unfold terminal in Hterm.
  apply orb_false_iff in Hterm as [Hterm Hcan].
  apply orb_false_iff in Hterm as [Hcomp Hfail].
  rewrite (poll_loop_status self job interval timeout _ m (tick w) st).
  - cbv zeta. rewrite Hcomp, Hfail, Hcan.
    unfold has_counters in Hcnt.
    destruct (progress st) as [| | | | |d]; try discriminate.
    unfold subscript.
    destruct (dict_lookup "currentPage" d); [|discriminate].
    destruct (dict_lookup "totalPages" d); [|discriminate].
    destruct (dict_lookup "listingsScraped" d); [|discriminate].
    unfold bind, ret, print, time_sleep.
    apply Z.ltb_lt in Hint. rewrite Hint. unfold raise.
    eexists. eexists. split; [reflexivity|].
    repeat split.
  - replace (nth_reading (tick w) 0) with (nth_reading w 1);
      [exact Hin | unfold nth_reading; cbn; f_equal; lia].
  - exact Hst.
Qed.

Lemma poll_until_complete_negative_interval_witness :
  exists w' line,
    poll_until_complete 1 demo_client (JStr "job-1") (-1) 300 world_stuck =
    (Raise ValueError, w')
    /\ sent w' = (sent world_stuck ++ [status_request demo_client (JStr "job-1")])%list
    /\ stdout w' = (stdout world_stuck ++ [line])%list
    /\ slept w' = slept world_stuck.
Proof.
  apply (poll_until_complete_negative_interval demo_client (JStr "job-1") (-1)
           300 1 world_stuck).
  - lia.
  - reflexivity.
  - reflexivity.
  - lia.
Defined.

(** X13: the loop has no bound of its own.  When every poll finds the job
    pending and every loop test finds the deadline not reached (a clock
    that stands still does that), [poll_until_complete] never returns:
    every budget of iterations is used up. *)
Theorem poll_until_complete_never_returns (self : ApartmentScraperClient)
    (job : json) (interval timeout : Z) (w : World) (fuel : nat) :
  (0 <= interval)%Z ->
  (forall i, within (nth_reading w (S i)) (nth_reading w 0) timeout = true) ->
  (forall i, pending_reply (nth_reply w i) = true) ->
  fst (poll_until_complete fuel self job interval timeout w) = Diverge.
Proof.
  intros Hint Hin Hpend.
  destruct (poll_until_complete_reach self job interval timeout fuel 0 w)
    as (w' & Hrun & _).
  - right. exact Hint.
  - intros i _. apply Hin.
  - intros i _. apply Hpend.
  - rewrite Nat.add_0_r in Hrun. rewrite Hrun. reflexivity.
Qed.

Lemma poll_until_complete_never_returns_witness :
  fst (poll_until_complete 1000 demo_client (JStr "job-1") 0 300 world_frozen)
  = Diverge.
Proof.
  apply (poll_until_complete_never_returns demo_client (JStr "job-1") 0 300
           world_frozen 1000).
  - lia.
  - intros i. reflexivity.
  - intros i. reflexivity.
Defined.

(* ===================================================================== *)
(** ** Further properties: [scrape_and_wait] *)
(* ===================================================================== *)

(** The world in which [scrape_and_wait] starts polling: the start request
    has gone out and the line naming the job has been printed. *)
Lemma scrape_and_wait_started self request poll_interval fuel w started job :
  decoded (nth_reply w 0) = Return (JObj started) ->
  dict_lookup "jobId" started = Some job ->
  scrape_and_wait fuel self request poll_interval w =
  (results <- poll_until_complete fuel self job poll_interval default_timeout ;;
   subscript results "results")
    (snd (print ("Job started: " ++ py_str job)
            (record_request (start_request self request) w))).
Proof.
  intros Hstart Hjob. unfold scrape_and_wait, bind at 1.
  rewrite start_scrape_run, Hstart.
  unfold bind at 1, subscript at 1. rewrite Hjob. reflexivity.
Qed.

(** X14: when [start_scrape] raises, whatever the reason (no connection,
    an error status, a body that is not JSON), [scrape_and_wait] raises the
    same error; the start request is the only request sent and nothing is
    printed. *)
Theorem scrape_and_wait_start_error (self : ApartmentScraperClient)
    (request : ScrapeRequest) (poll_interval : Z) (fuel : nat) (w : World)
    (e : Exception) :
  decoded (nth_reply w 0) = Raise e ->
  scrape_and_wait fuel self request poll_interval w =
  (Raise e, record_request (start_request self request) w)
  /\ new_requests w (snd (scrape_and_wait fuel self request poll_interval w)) =
     [start_request self request]
  /\ stdout (snd (scrape_and_wait fuel self request poll_interval w)) = stdout w.
Proof.
  intros Hstart.
  assert (Hrun : scrape_and_wait fuel self request poll_interval w =
                 (Raise e, record_request (start_request self request) w)).
  { unfold scrape_and_wait, bind at 1. now rewrite start_scrape_run, Hstart. }
  rewrite Hrun. cbn [snd]. repeat split.
  now apply new_requests_app.
Qed.

Lemma scrape_and_wait_start_error_witness :
  scrape_and_wait 5 demo_client atlanta 5 world_refused =
  (Raise (ConnectionError "connection reset"),
   record_request (start_request demo_client atlanta) world_refused)
  /\ new_requests world_refused
       (snd (scrape_and_wait 5 demo_client atlanta 5 world_refused)) =
     [start_request demo_client atlanta]
  /\ stdout (snd (scrape_and_wait 5 demo_client atlanta 5 world_refused)) =
     stdout world_refused.
Proof.
  apply (scrape_and_wait_start_error demo_client atlanta 5 5 world_refused).
  reflexivity.
Defined.

(** X15: when the start response is an object without jobId,
    [scrape_and_wait] raises the key error for jobId; no status request is
    sent and nothing is printed. *)
Theorem scrape_and_wait_missing_job_id (self : ApartmentScraperClient)
    (request : ScrapeRequest) (poll_interval : Z) (fuel : nat) (w : World)
    (started : dict) :
  decoded (nth_reply w 0) = Return (JObj started) ->
  dict_lookup "jobId" started = None ->
  scrape_and_wait fuel self request poll_interval w =
  (Raise (KeyError "jobId"), record_request (start_request self request) w).
Proof.
  intros Hstart Hjob. unfold scrape_and_wait, bind at 1.
  rewrite start_scrape_run, Hstart.
  unfold bind at 1, subscript at 1. rewrite Hjob. reflexivity.
Qed.

Lemma scrape_and_wait_missing_job_id_witness :
  scrape_and_wait 5 demo_client atlanta 5 world_no_job_id =
  (Raise (KeyError "jobId"),
   record_request (start_request demo_client atlanta) world_no_job_id).
Proof.
  eapply (scrape_and_wait_missing_job_id demo_client atlanta 5 5 world_no_job_id);
    reflexivity.
Defined.

(** X16: once the job is started, whatever [poll_until_complete] raises
    for it (job failure, cancellation, timeout, a failed request),
    [scrape_and_wait] raises too, leaving the world as the poll left it. *)
Theorem scrape_and_wait_poll_error (self : ApartmentScraperClient)
    (request : ScrapeRequest) (poll_interval : Z) (fuel : nat) (w : World)
    (started : dict) (job : json) (e : Exception) :
  decoded (nth_reply w 0) = Return (JObj started) ->
  dict_lookup "jobId" started = Some job ->
  fst (poll_until_complete fuel self job poll_interval default_timeout
         (snd (print ("Job started: " ++ py_str job)
                 (record_request (start_request self request) w)))) = Raise e ->
  fst (scrape_and_wait fuel self request poll_interval w) = Raise e
  /\ snd (scrape_and_wait fuel self request poll_interval w) =
     snd (poll_until_complete fuel self job poll_interval default_timeout
            (snd (print ("Job started: " ++ py_str job)
                    (record_request (start_request self request) w)))).
Proof.
  intros Hstart Hjob Hpoll.
  rewrite (scrape_and_wait_started self request poll_interval fuel w started job
             Hstart Hjob).
  revert Hpoll. unfold bind.
  destruct (poll_until_complete fuel self job poll_interval default_timeout _)
    as [r w1].
  cbn [fst]. intros ->. split; reflexivity.
Qed.

Lemma scrape_and_wait_poll_error_witness :
  fst (scrape_and_wait 5 demo_client atlanta 5 world_session_failed) =
  Raise (RuntimeError "Job failed: blocked")
  /\ snd (scrape_and_wait 5 demo_client atlanta 5 world_session_failed) =
     snd (poll_until_complete 5 demo_client (JStr "job-1") 5 default_timeout
            (snd (print ("Job started: " ++ py_str (JStr "job-1"))
                    (record_request (start_request demo_client atlanta)
                       world_session_failed)))).
Proof.
  eapply (scrape_and_wait_poll_error demo_client atlanta 5 5 world_session_failed).
  - reflexivity.
  - reflexivity.
  - vm_compute. reflexivity.
Defined.

(** X17: when the job completes but the results payload is an object
    without the key results, [scrape_and_wait] raises the key error for
    results, after the results request. *)
Theorem scrape_and_wait_missing_results (self : ApartmentScraperClient)
    (request : ScrapeRequest) (poll_interval : Z) (k fuel : nat) (w : World)
    (started payload : dict) (job : json) (st : JobStatus) :
  decoded (nth_reply w 0) = Return (JObj started) ->
  dict_lookup "jobId" started = Some job ->
  (k = 0%nat \/ (0 <= poll_interval)%Z) ->
  (forall i, (i <= k)%nat ->
     within (nth_reading w (S i)) (nth_reading w 0) default_timeout = true) ->
  (forall i, (i < k)%nat -> pending_reply (nth_reply w (S i)) = true) ->
  polled (nth_reply w (S k)) = Some st ->
  status st = JStr "completed" ->
  decoded (nth_reply w (S (S k))) = Return (JObj payload) ->
  dict_lookup "results" payload = None ->
  (k < fuel)%nat ->
  fst (scrape_and_wait fuel self request poll_interval w) =
  Raise (KeyError "results")
  /\ new_requests w (snd (scrape_and_wait fuel self request poll_interval w)) =
     ([start_request self request]
        ++ repeat (status_request self job) (S k)
        ++ [results_request self job])%list.
Proof.
  intros Hstart Hjob Hint Hin Hpend Hst Hdone Hres Hnone Hfuel.
  rewrite (scrape_and_wait_started self request poll_interval fuel w started job
             Hstart Hjob).
  set (w0 := snd (print _ _)).
  assert (Hreply : forall i, nth_reply w0 i = nth_reply w (S i)).
  { intros i. unfold nth_reply, w0. cbn.
    rewrite length_app. cbn. f_equal. lia. }
  assert (Hread : forall i, nth_reading w0 i = nth_reading w i) by reflexivity.
  destruct (poll_until_complete_at_head self job poll_interval default_timeout
              k fuel w0)
    as (m & w1 & Hrun & Hclock & Hreply1 & Hscript & Hsent & _).
  { exact Hint. }
  { intros i Hi. rewrite !Hread. apply Hin. lia. }
  { intros i Hi. rewrite Hreply. apply Hpend. exact Hi. }
  { exact Hfuel. }
  unfold bind.
  rewrite Hrun, (poll_loop_status self job poll_interval default_timeout _ m w1 st).
  - cbv zeta. rewrite Hdone, eq_str_refl, get_results_run.
    set (w2 := record_request (status_request self job) (tick w1)).
    assert (Hlast : nth_reply w2 0 = nth_reply w (S (S k))).
    { unfold nth_reply, w2. cbn. rewrite Hscript, length_app, Hsent.
      unfold w0. cbn. rewrite !length_app, repeat_length. cbn.
      f_equal. lia. }
    rewrite Hlast, Hres. unfold subscript. rewrite Hnone.
    split; [reflexivity|]. cbn [snd raise].
    apply new_requests_app.
    rewrite sent_record_request. unfold w2. rewrite sent_record_request.
    cbn [tick time_time snd sent]. rewrite Hsent. unfold w0. cbn [sent print snd].
    rewrite sent_record_request, <- repeat_snoc, <- !app_assoc. reflexivity.
  - rewrite Hclock, !Hread. apply Hin. lia.
  - rewrite Hreply1, Hreply. exact Hst.
Qed.

Lemma scrape_and_wait_missing_results_witness :
  fst (scrape_and_wait 1 demo_client atlanta 5 world_no_results) =
  Raise (KeyError "results")
  /\ new_requests world_no_results
       (snd (scrape_and_wait 1 demo_client atlanta 5 world_no_results)) =
     ([start_request demo_client atlanta]
        ++ repeat (status_request demo_client (JStr "job-1")) 1
        ++ [results_request demo_client (JStr "job-1")])%list.
Proof.
  eapply (scrape_and_wait_missing_results demo_client atlanta 5 0 1
            world_no_results).
  - reflexivity.
  - reflexivity.
  - left. reflexivity.
  - intros i Hi. destruct i as [|i]; [reflexivity|lia].
  - intros i Hi. lia.
  - reflexivity.
  - reflexivity.
  - reflexivity.
  - reflexivity.
  - lia.
Defined.

(* ===================================================================== *)
(** ** Further properties: [basic_example] *)
(* ===================================================================== *)

(** X18: when the start response carries a job id and the status response
    a status, [basic_example] sends exactly two requests, without an
    Authorization header: the start request for up to 3 pages of
    atlanta, ga with its three filters, then one status request for the
    job id it was given; it prints that job id and that status, and it does
    not poll again or fetch results. *)
Theorem basic_example_run (w : World) (started : dict) (job : json)
    (st : JobStatus) :
  decoded (nth_reply w 0) = Return (JObj started) ->
  dict_lookup "jobId" started = Some job ->
  polled (nth_reply w 1) = Some st ->
  exists w',
    basic_example w = (Return tt, w')
    /\ new_requests w w' =
       [ {| method := POST;
            url := "https://apartment-scraper.workers.dev/api/scrape/start";
            headers := [];
            json_body :=
              Some (JObj [("city", JStr "atlanta"); ("state", JStr "ga");
                          ("maxPages", JNum 3);
                          ("filters",
                           JObj [("minPrice", JNum 1000);
                                 ("maxPrice", JNum 3000);
                                 ("beds", JArr [JNum 1; JNum 2])])]) |};
         {| method := GET;
            url := "https://apartment-scraper.workers.dev/api/scrape/status/"
                   ++ py_str job;
            headers := [];
            json_body := None |} ]
    /\ stdout w' =
       (stdout w ++ [("Job started: " ++ py_str job)%string;
                     ("Status: " ++ py_str (status st))%string])%list.
Proof.
  intros Hstart Hjob Hst.
  unfold basic_example. cbv zeta. unfold bind at 1.
  rewrite start_scrape_run, Hstart.
  unfold bind at 1, subscript at 1. rewrite Hjob. unfold ret at 1.
  unfold bind at 1, print at 1.
  unfold bind at 1, subscript at 1. rewrite Hjob. unfold ret at 1.
  unfold bind at 1.
  rewrite (get_status_polled basic_client job _ st).
  - unfold print. eexists. split; [reflexivity|]. split.
    + apply new_requests_app. cbn. rewrite <- app_assoc. reflexivity.
    + cbn. rewrite <- app_assoc. reflexivity.
  - rewrite <- Hst. unfold nth_reply. cbn. rewrite length_app. cbn.
    f_equal. f_equal. lia.
Qed.

Lemma basic_example_run_witness :
  exists w',
    basic_example world_basic = (Return tt, w')
    /\ new_requests world_basic w' =
       [ {| method := POST;
            url := "https://apartment-scraper.workers.dev/api/scrape/start";
            headers := [];
            json_body :=
              Some (JObj [("city", JStr "atlanta"); ("state", JStr "ga");
                          ("maxPages", JNum 3);
                          ("filters",
                           JObj [("minPrice", JNum 1000);
                                 ("maxPrice", JNum 3000);
                                 ("beds", JArr [JNum 1; JNum 2])])]) |};
         {| method := GET;
            url := "https://apartment-scraper.workers.dev/api/scrape/status/"
                   ++ py_str (JStr "job-1");
            headers := [];
            json_body := None |} ]
    /\ stdout w' =
       (stdout world_basic
          ++ [("Job started: " ++ py_str (JStr "job-1"))%string;
              ("Status: " ++ py_str (JStr "pending"))%string])%list.
Proof.
  apply (basic_example_run world_basic
           [("jobId", JStr "job-1"); ("status", JStr "pending")]
           (JStr "job-1")
           {| job_id := JStr "job-1"; status := JStr "pending";
              progress := JObj [("currentPage", JNum 2); ("totalPages", JNum 5);
                                ("listingsScraped", JNum 40)];
              created_at := JStr "2024-01-01T00:00:00Z";
              updated_at := JStr "2024-01-01T00:00:10Z";
              completed_at := JNull; error := JNull |});
    reflexivity.
Defined.

(** X19: when [start_scrape] raises in [basic_example], the example raises
    the same error: no status request is sent and nothing is printed. *)
Theorem basic_example_start_error (w : World) (e : Exception) :
  decoded (nth_reply w 0) = Raise e ->
  exists w',
    basic_example w = (Raise e, w')
    /\ List.length (new_requests w w') = 1%nat
    /\ stdout w' = stdout w.
Proof.
  intros Hstart. unfold basic_example. cbv zeta. unfold bind at 1.
  rewrite start_scrape_run, Hstart.
  eexists. split; [reflexivity|]. split; [|reflexivity].
  rewrite (new_requests_app _ _ [start_request basic_client basic_request]);
    reflexivity.
Qed.

Lemma basic_example_start_error_witness :
  exists w',
    basic_example world_refused = (Raise (ConnectionError "connection reset"), w')
    /\ List.length (new_requests world_refused w') = 1%nat
    /\ stdout w' = stdout world_refused.
Proof.
  apply (basic_example_start_error world_refused). reflexivity.
Defined.

(* ===================================================================== *)
(** ** Further properties: when [get_status] returns *)
(* ===================================================================== *)

(** X20: [get_status] returns a status only out of a response whose code
    is not an error code and whose body is an object that has all five
    required fields; the job id and the status it returns are the ones of
    that object, whatever job id was asked for. *)
Theorem get_status_returns_only_complete (self : ApartmentScraperClient)
    (job : json) (w w' : World) (st : JobStatus) :
  get_status self job w = (Return st, w') ->
  exists code d,
    nth_reply w 0 = Answered {| status_code := code; body := Some (JObj d) |}
    /\ ((400 <=? code) && (code <? 600))%Z = false
    /\ first_missing required_fields d = None
    /\ dict_lookup "jobId" d = Some (job_id st)
    /\ dict_lookup "status" d = Some (status st).
Proof.
  intros Hrun. apply get_status_returns in Hrun.
  unfold polled, transport_failure in Hrun.
  destruct (nth_reply w 0) as [reason|[code [v|]]]; try discriminate;
    cbn in Hrun;
    destruct ((400 <=? code) && (code <? 600))%Z eqn:Hcode; try discriminate.
  destruct v as [| | | | |d]; try discriminate.
  exists code, d. split; [reflexivity|]. split; [exact Hcode|].
  unfold first_missing, required_fields, absent. cbn.
  destruct (dict_lookup "jobId" d); [|discriminate].
  destruct (dict_lookup "status" d); [|discriminate].
  destruct (dict_lookup "progress" d); [|discriminate].
  destruct (dict_lookup "createdAt" d); [|discriminate].
  destruct (dict_lookup "updatedAt" d); [|discriminate].
  injection Hrun as <-. repeat split.
Qed.

Lemma get_status_returns_only_complete_witness :
  exists code d,
    nth_reply world_completed 0 =
    Answered {| status_code := code; body := Some (JObj d) |}
    /\ ((400 <=? code) && (code <? 600))%Z = false
    /\ first_missing required_fields d = None
    /\ dict_lookup "jobId" d = Some (JStr "job-1")
    /\ dict_lookup "status" d = Some (JStr "processing").
Proof.
  apply (get_status_returns_only_complete demo_client (JStr "other-job")
           world_completed
           (record_request (status_request demo_client (JStr "other-job"))
              world_completed)
           {| job_id := JStr "job-1"; status := JStr "processing";
              progress := JObj [("currentPage", JNum 2); ("totalPages", JNum 5);
                                ("listingsScraped", JNum 40)];
              created_at := JStr "2024-01-01T00:00:00Z";
              updated_at := JStr "2024-01-01T00:00:10Z";
              completed_at := JNull; error := JNull |}).
  reflexivity.
Defined.
